(** * CanBoot main module ([src/canboot_main.c]): boot decision, page
      buffering and the flash command handlers.

    The C module keeps its state in file-level statics and talks to the
    flash driver, the command framework, the persistent boot-up register and
    the GPIO driver through calls.  Here the statics and the collaborators'
    observable state form one record [state]; every C function is a
    computation in a small state-and-fault monad [M]; calls made on the
    collaborators are appended, in order, to [trace]. *)

From Stdlib Require Import String Ascii.
From Stdlib Require Import ZArith List Bool Lia.
Import ListNotations.
Local Open Scope Z_scope.

(** ** Machine arithmetic *)

(** [uint32_t] arithmetic wraps modulo 2^32. *)
Definition wrap32 (x : Z) : Z := x mod 2 ^ 32.

(** [uint8_t] arithmetic wraps modulo 2^8 (the loop counter of
    [check_application_code]). *)
Definition wrap8 (x : Z) : Z := x mod 2 ^ 8.

(** [#define REQUEST_SIG 0x5984E3FA6CA1589B] *)
Definition REQUEST_SIG : Z := 0x5984E3FA6CA1589B.

(** ** Build configuration

    [autoconf.h] and the board headers are not part of the module; the
    constants they provide are the fields of [config].  [flash_page_size] is
    the value returned by [flash_get_page_size()]. *)
Record config : Type := {
  CONFIG_MAX_FLASH_PAGE_SIZE : Z;
  CONFIG_APPLICATION_START : Z;
  CONFIG_BLOCK_SIZE : Z;
  CONFIG_MCU : string;
  CONFIG_ENABLE_BUTTON : bool;
  CONFIG_ENABLE_DOUBLE_RESET : bool;
  PROTO_VERSION : Z;
  flash_page_size : Z;
  button_gpio : Z;
  button_high : Z;
  button_pullup : Z
}.

(** ** Observable calls on the collaborators

    Recorded are the calls that act on a collaborator: page writes and the
    finalize call of the flash driver, the responses, the button set-up
    and the delays.  Calls that only return a value ([flash_read_block],
    [flash_get_page_size], [get_bootup_code], [gpio_in_read]) and
    [set_bootup_code], whose effect is the register itself, are not. *)

Inductive command_id : Type :=
| CMD_CONNECT | CMD_RX_BLOCK | CMD_RX_EOF | CMD_REQ_BLOCK | CMD_COMPLETE.

(** An acknowledgement carries the words stored from [out[2]] on (each
    through [cpu_to_le32]) followed by the raw bytes copied behind them. *)
Inductive event : Type :=
| EvFlashWritePage (page_address : Z) (data : list Z)
| EvFlashComplete
| EvAck (cmd : command_id) (words : list Z) (bytes : list Z)
| EvCommandError
| EvGpioInSetup (pin pull_up : Z)
| EvUdelay (usec : Z).

(** ** State: the module's statics and the collaborators' state *)
Record state : Type := {
  page_buffer : list Z;        (* static uint8_t page_buffer[CONFIG_MAX_FLASH_PAGE_SIZE] *)
  last_page_address : Z;       (* static uint32_t last_page_address = 0 *)
  page_pending : bool;         (* static uint8_t page_pending = 0 *)
  is_in_transfer : bool;       (* static uint8_t is_in_transfer *)
  complete : bool;             (* static uint8_t complete = 0 *)
  flash : Z -> Z;              (* program memory, one byte per address *)
  bootup_code : Z;             (* persistent register behind get/set_bootup_code *)
  gpio_level : Z;              (* level gpio_in_read reports for the button *)
  trace : list event           (* calls on the collaborators, oldest first *)
}.

Definition with_page_buffer (b : list Z) (s : state) : state :=
  {| page_buffer := b; last_page_address := last_page_address s;
     page_pending := page_pending s; is_in_transfer := is_in_transfer s;
     complete := complete s; flash := flash s; bootup_code := bootup_code s;
     gpio_level := gpio_level s; trace := trace s |}.

Definition with_last_page_address (a : Z) (s : state) : state :=
  {| page_buffer := page_buffer s; last_page_address := a;
     page_pending := page_pending s; is_in_transfer := is_in_transfer s;
     complete := complete s; flash := flash s; bootup_code := bootup_code s;
     gpio_level := gpio_level s; trace := trace s |}.

Definition with_page_pending (p : bool) (s : state) : state :=
  {| page_buffer := page_buffer s; last_page_address := last_page_address s;
     page_pending := p; is_in_transfer := is_in_transfer s;
     complete := complete s; flash := flash s; bootup_code := bootup_code s;
     gpio_level := gpio_level s; trace := trace s |}.

Definition with_is_in_transfer (t : bool) (s : state) : state :=
  {| page_buffer := page_buffer s; last_page_address := last_page_address s;
     page_pending := page_pending s; is_in_transfer := t;
     complete := complete s; flash := flash s; bootup_code := bootup_code s;
     gpio_level := gpio_level s; trace := trace s |}.

Definition with_complete (c : bool) (s : state) : state :=
  {| page_buffer := page_buffer s; last_page_address := last_page_address s;
     page_pending := page_pending s; is_in_transfer := is_in_transfer s;
     complete := c; flash := flash s; bootup_code := bootup_code s;
     gpio_level := gpio_level s; trace := trace s |}.

Definition with_flash (f : Z -> Z) (s : state) : state :=
  {| page_buffer := page_buffer s; last_page_address := last_page_address s;
     page_pending := page_pending s; is_in_transfer := is_in_transfer s;
     complete := complete s; flash := f; bootup_code := bootup_code s;
     gpio_level := gpio_level s; trace := trace s |}.

Definition with_bootup_code (c : Z) (s : state) : state :=
  {| page_buffer := page_buffer s; last_page_address := last_page_address s;
     page_pending := page_pending s; is_in_transfer := is_in_transfer s;
     complete := complete s; flash := flash s; bootup_code := c;
     gpio_level := gpio_level s; trace := trace s |}.

Definition with_event (e : event) (s : state) : state :=
  {| page_buffer := page_buffer s; last_page_address := last_page_address s;
     page_pending := page_pending s; is_in_transfer := is_in_transfer s;
     complete := complete s; flash := flash s; bootup_code := bootup_code s;
     gpio_level := gpio_level s; trace := trace s ++ [e] |}.

(** ** The monad: state passing with faults

    A fault stands for behaviour the C standard leaves undefined (a copy
    outside an array, a remainder or quotient by zero) or for a loop that
    has not finished within the fuel given. *)
Inductive fault : Type := BufferOverrun | DivisionByZero | OutOfFuel.

Inductive outcome (A : Type) : Type :=
| Done (a : A)
| Fault (f : fault).
Arguments Done {A} a.
Arguments Fault {A} f.

Definition M (A : Type) : Type := state -> outcome (A * state).

Definition ret {A} (a : A) : M A := fun s => Done (a, s).

Definition bind {A B} (m : M A) (k : A -> M B) : M B :=
  fun s => match m s with
           | Done (a, s') => k a s'
           | Fault f => Fault f
           end.

Definition gets {A} (proj : state -> A) : M A := fun s => Done (proj s, s).

Definition modify (upd : state -> state) : M unit := fun s => Done (tt, upd s).

Definition lift {A} (o : outcome A) : M A :=
  fun s => match o with Done a => Done (a, s) | Fault f => Fault f end.

Declare Scope canboot_scope.
Delimit Scope canboot_scope with canboot.
Notation "x <- m ;; k" := (bind m (fun x => k))
  (at level 61, m at next level, right associativity) : canboot_scope.
Notation "m ;; k" := (bind m (fun _ => k))
  (at level 61, right associativity) : canboot_scope.
Local Open Scope canboot_scope.

(** ** C library and operators *)

(** [memcpy(&buf[pos], src, n)] on an array [buf]: defined only when the
    [n] bytes lie inside [buf] and [src] holds [n] bytes to read. *)
Definition memcpy_at (buf : list Z) (pos : Z) (src : list Z) (n : Z)
  : outcome (list Z) :=
  if (0 <=? pos) && (0 <=? n)
     && (pos + n <=? Z.of_nat (length buf))
     && (n <=? Z.of_nat (length src))
  then Done (firstn (Z.to_nat pos) buf
             ++ firstn (Z.to_nat n) src
             ++ skipn (Z.to_nat (pos + n)) buf)
  else Fault BufferOverrun.

(** Unsigned [a % b] and [a / b]. *)
Definition umod (a b : Z) : outcome Z :=
  if b =? 0 then Fault DivisionByZero else Done (a mod b).

Definition udiv (a b : Z) : outcome Z :=
  if b =? 0 then Fault DivisionByZero else Done (a / b).

(** [DIV_ROUND_UP(n, d)] *)
Definition DIV_ROUND_UP (n d : Z) : Z := (n + d - 1) / d.

(** The bytes of a C string literal, without the terminator. *)
Definition string_bytes (s : string) : list Z :=
  map (fun c => Z.of_nat (nat_of_ascii c)) (list_ascii_of_string s).

(** ** A decoded request frame

    The command framework hands each handler the frame [data]: word 0 is
    the header, from which [command_get_arg_count] reads the argument
    count; word 1 is the first argument; the bytes from [&data[2]] on are
    the rest of the frame. *)
Record frame : Type := {
  command_get_arg_count : Z;
  data_1 : Z;                  (* le32_to_cpu(data[1]) *)
  data_2_bytes : list Z        (* the bytes at (uint8_t * )&data[2] *)
}.

Section Canboot.

Variable cfg : config.

(** ** Collaborators *)

Definition flash_get_page_size : Z := flash_page_size cfg.

(** Modelled from the spec: the flash driver's [flash_write_page] (board
    code, absent from the module) programs the page buffer's contents to
    flash at the page's base address, one page of [flash_get_page_size()]
    bytes.  The call and the buffer handed over are recorded in [trace]. *)
Definition flash_write_page (page_address : Z) (data : list Z) : M unit :=
  modify (fun s =>
    with_event (EvFlashWritePage page_address data)
      (with_flash
         (fun a => if (page_address <=? a) && (a <? page_address + flash_get_page_size)
                   then nth (Z.to_nat (a - page_address)) data 0
                   else flash s a)
         s)).

(** Modelled from the spec: the flash driver's [flash_read_block] (board
    code, absent from the module) reads one block of [CONFIG_BLOCK_SIZE]
    bytes directly from flash at [address]. *)
Definition flash_read_block (address : Z) : M (list Z) :=
  gets (fun s => map (fun i => flash s (address + Z.of_nat i))
                     (seq 0 (Z.to_nat (CONFIG_BLOCK_SIZE cfg)))).

(** Modelled from the spec: [flash_complete] signals the flash driver that
    the image is finalized; program memory is left as it is. *)
Definition flash_complete : M unit := modify (with_event EvFlashComplete).

(** The command framework's two responses ([command.h]); each call is
    recorded with what it carries. *)
Definition command_respond_ack (cmd : command_id) (words bytes : list Z) : M unit :=
  modify (with_event (EvAck cmd words bytes)).

Definition command_respond_command_error : M unit :=
  modify (with_event EvCommandError).

(** Modelled from the spec: [get_bootup_code] and [set_bootup_code] (board
    code, absent from the module) read and write the persistent register,
    which keeps the value last written. *)
Definition get_bootup_code : M Z := gets bootup_code.

Definition set_bootup_code (c : Z) : M unit := modify (with_bootup_code c).

(** The busy-wait and the GPIO driver: the calls are recorded, and
    [gpio_in_read] reports the level of the button pin. *)
Definition udelay (usec : Z) : M unit := modify (with_event (EvUdelay usec)).

Definition gpio_in_setup (pin pull_up : Z) : M unit :=
  modify (with_event (EvGpioInSetup pin pull_up)).

Definition gpio_in_read : M Z := gets gpio_level.

(** ** The module's functions *)

Definition flashcmd_is_in_transfer : M bool := gets is_in_transfer.

Definition write_page (page_address : Z) : M unit :=
  buf <- gets page_buffer ;;
  flash_write_page page_address buf ;;
  modify (with_page_buffer
            (repeat 0xFF (Z.to_nat (CONFIG_MAX_FLASH_PAGE_SIZE cfg)))) ;;
  modify (with_last_page_address page_address) ;;
  modify (with_page_pending false).

(** [out] has [CONFIG_BLOCK_SIZE / 4 + 2 + 2] words: two header words, the
    address in [out[2]], [CONFIG_BLOCK_SIZE / 4] words for the block from
    [out[3]] on, and the trailer word.  [flash_read_block] stores
    [CONFIG_BLOCK_SIZE] bytes from [&out[3]]; the acknowledgement carries
    the [CONFIG_BLOCK_SIZE / 4] words before the trailer, that is the first
    [4 * (CONFIG_BLOCK_SIZE / 4)] bytes of the block. *)
Definition command_read_block (data : frame) : M unit :=
  modify (with_is_in_transfer true) ;;
  let block_address := data_1 data in
  block <- flash_read_block block_address ;;
  command_respond_ack CMD_REQ_BLOCK [block_address]
    (firstn (Z.to_nat (4 * (CONFIG_BLOCK_SIZE cfg / 4))) block).

Definition command_write_block (data : frame) : M unit :=
  modify (with_is_in_transfer true) ;;
  if negb (command_get_arg_count data =? CONFIG_BLOCK_SIZE cfg / 4 + 1) then
    command_respond_command_error
  else
    let block_address := data_1 data in
    if block_address <? CONFIG_APPLICATION_START cfg then
      command_respond_command_error
    else
      let flash_page_size := flash_get_page_size in
      page_pos <- lift (umod block_address flash_page_size) ;;
      buf <- gets page_buffer ;;
      buf' <- lift (memcpy_at buf page_pos (data_2_bytes data)
                              (CONFIG_BLOCK_SIZE cfg)) ;;
      modify (with_page_buffer buf') ;;
      modify (with_page_pending true) ;;
      (if wrap32 (page_pos + CONFIG_BLOCK_SIZE cfg) =? flash_page_size
       then write_page (wrap32 (block_address - page_pos))
       else ret tt) ;;
      command_respond_ack CMD_RX_BLOCK [block_address] [].

Definition command_eof (data : frame) : M unit :=
  modify (with_is_in_transfer false) ;;
  let flash_page_size := flash_get_page_size in
  pending <- gets page_pending ;;
  (if pending
   then last <- gets last_page_address ;;
        write_page (wrap32 (last + flash_page_size))
   else ret tt) ;;
  flash_complete ;;
  last <- gets last_page_address ;;
  pages <- lift (udiv (wrap32 (last - CONFIG_APPLICATION_START cfg))
                      flash_page_size) ;;
  command_respond_ack CMD_RX_EOF [wrap32 (pages + 1)] [].

Definition command_complete (data : frame) : M unit :=
  command_respond_ack CMD_COMPLETE [] [] ;;
  modify (with_complete true).

Definition command_connect (data : frame) : M unit :=
  let mcu := string_bytes (CONFIG_MCU cfg) in
  let mcuwords := DIV_ROUND_UP (Z.of_nat (length mcu)) 4 in
  command_respond_ack CMD_CONNECT
    [PROTO_VERSION cfg; CONFIG_APPLICATION_START cfg; CONFIG_BLOCK_SIZE cfg]
    (mcu ++ repeat 0 (Z.to_nat (mcuwords * 4) - length mcu)).

(** The scan of [check_application_code]:
    [for (uint8_t i = 0; i < CONFIG_BLOCK_SIZE; i++)
       if (page_buffer[i] != 0xFF) return 1;
     return 0;]
    with the counter wrapping as a [uint8_t] does. *)
Fixpoint check_application_code_loop (fuel : nat) (i : Z) (buf : list Z)
  : outcome Z :=
  match fuel with
  | O => Fault OutOfFuel
  | S fuel' =>
      if i <? CONFIG_BLOCK_SIZE cfg then
        if negb (nth (Z.to_nat i) buf 0 =? 0xFF) then Done 1
        else check_application_code_loop fuel' (wrap8 (i + 1)) buf
      else Done 0
  end.

Definition check_application_code (fuel : nat) : M Z :=
  block <- flash_read_block (CONFIG_APPLICATION_START cfg) ;;
  buf <- gets page_buffer ;;
  buf' <- lift (memcpy_at buf 0 block (CONFIG_BLOCK_SIZE cfg)) ;;
  modify (with_page_buffer buf') ;;
  lift (check_application_code_loop fuel 0 buf').

Definition check_button_pressed : M bool :=
  if negb (CONFIG_ENABLE_BUTTON cfg) then ret false
  else
    gpio_in_setup (button_gpio cfg) (button_pullup cfg) ;;
    udelay 10 ;;
    level <- gpio_in_read ;;
    ret (level =? button_high cfg).

Definition check_double_reset : M unit :=
  if negb (CONFIG_ENABLE_DOUBLE_RESET cfg) then ret tt
  else
    set_bootup_code REQUEST_SIG ;;
    udelay 500000 ;;
    set_bootup_code 0.

(** [canboot_main] leaves through one of two calls that do not come back:
    [enter_bootloader()] (the scheduler loop, ending in [canbus_reboot()])
    or [jump_to_application()].  The model returns which one is reached. *)
Inductive boot_decision : Type := EnterBootloader | JumpToApplication.

Definition canboot_main (fuel : nat) : M boot_decision :=
  code <- get_bootup_code ;;
  enter <-
    (if code =? REQUEST_SIG then ret true
     else
       app <- check_application_code fuel ;;
       if app =? 0 then ret true
       else check_button_pressed) ;;
  if (enter : bool) then
    set_bootup_code 0 ;;
    ret EnterBootloader
  else
    check_double_reset ;;
    ret JumpToApplication.

(** ** Sessions

    Inside [enter_bootloader] the scheduler's tasks hand every decoded
    frame to the handler of its opcode; a session is the list of those
    calls in arrival order. *)
Inductive command : Type :=
| Connect (data : frame)
| ReadBlock (data : frame)
| WriteBlock (data : frame)
| Eof (data : frame)
| Complete (data : frame).

Definition handle (c : command) : M unit :=
  match c with
  | Connect d => command_connect d
  | ReadBlock d => command_read_block d
  | WriteBlock d => command_write_block d
  | Eof d => command_eof d
  | Complete d => command_complete d
  end.

Fixpoint run (cs : list command) : M unit :=
  match cs with
  | [] => ret tt
  | c :: cs' => handle c ;; run cs'
  end.

(** The statics as the C runtime initialises them, before [canboot_main]. *)
Definition power_on (mem : Z -> Z) (code level : Z) : state :=
  {| page_buffer := repeat 0 (Z.to_nat (CONFIG_MAX_FLASH_PAGE_SIZE cfg));
     last_page_address := 0;
     page_pending := false;
     is_in_transfer := false;
     complete := false;
     flash := mem;
     bootup_code := code;
     gpio_level := level;
     trace := [] |}.

(** [block_address % flash_page_size], the position of a block in the page
    buffer. *)
Definition page_pos (block_address : Z) : Z :=
  block_address mod flash_get_page_size.

(** The two checks of [command_write_block] that precede the copy. *)
Definition write_block_accepted (data : frame) : bool :=
  (command_get_arg_count data =? CONFIG_BLOCK_SIZE cfg / 4 + 1)
  && negb (data_1 data <? CONFIG_APPLICATION_START cfg).

End Canboot.

(** Frames as the host builds them. *)
Definition write_frame (cfg : config) (address : Z) (payload : list Z) : frame :=
  {| command_get_arg_count := CONFIG_BLOCK_SIZE cfg / 4 + 1;
     data_1 := address;
     data_2_bytes := payload |}.

Definition read_frame (address : Z) : frame :=
  {| command_get_arg_count := 1; data_1 := address; data_2_bytes := [] |}.

Definition empty_frame : frame :=
  {| command_get_arg_count := 0; data_1 := 0; data_2_bytes := [] |}.

(** The flash commits recorded in a trace, oldest first. *)
Definition flash_commits (t : list event) : list (Z * list Z) :=
  flat_map (fun e => match e with
                     | EvFlashWritePage a d => [(a, d)]
                     | _ => []
                     end) t.

(** The configuration of the specification's scenarios: application start
    0x8000, blocks of 64 bytes, pages of 256 bytes. *)
Definition scenario_cfg : config :=
  {| CONFIG_MAX_FLASH_PAGE_SIZE := 256;
     CONFIG_APPLICATION_START := 0x8000;
     CONFIG_BLOCK_SIZE := 64;
     CONFIG_MCU := "stm32f103xe"%string;
     CONFIG_ENABLE_BUTTON := false;
     CONFIG_ENABLE_DOUBLE_RESET := false;
     PROTO_VERSION := 0x00010000;
     flash_page_size := 256;
     button_gpio := 0;
     button_high := 1;
     button_pullup := 0 |}.

(** ** Vocabulary of the properties *)

(** The buffer [memcpy_at] leaves, on naturals. *)
Definition splice (buf : list Z) (pos : nat) (src : list Z) : list Z :=
  firstn pos buf ++ src ++ skipn (pos + length src) buf.

(** The state after the copy of an accepted block, before the commit test. *)
Definition staged (buf' : list Z) (s : state) : state :=
  with_page_pending true (with_page_buffer buf' (with_is_in_transfer true s)).

(** The state [write_page] leaves. *)
Definition committed (cfg : config) (page_address : Z) (s : state) : state :=
  with_page_pending false
    (with_last_page_address page_address
       (with_page_buffer (repeat 0xFF (Z.to_nat (CONFIG_MAX_FLASH_PAGE_SIZE cfg)))
          (with_event (EvFlashWritePage page_address (page_buffer s))
             (with_flash
                (fun a => if (page_address <=? a)
                             && (a <? page_address + flash_page_size cfg)
                          then nth (Z.to_nat (a - page_address)) (page_buffer s) 0
                          else flash s a)
                s)))).

(** The session state at power-on in the scenario configuration, flash
    erased, no boot request, button released. *)
Definition scenario_power_on : state :=
  power_on scenario_cfg (fun _ => 0xFF) 0 0.

(** A write-block frame whose address lies below the application. *)
Definition low_address_frame : frame :=
  write_frame scenario_cfg 0x4000 (repeat 0xAA 64).

(** An invalid write-block changes no state at all, the transfer flag
    included: the frame property as the specification words it. *)
Definition rejected_without_any_change (cfg : config) (data : frame) (s : state)
  : Prop :=
  exists s',
    command_write_block cfg data s = Done (tt, s')
    /\ trace s' = trace s ++ [EvCommandError]
    /\ page_buffer s' = page_buffer s
    /\ last_page_address s' = last_page_address s
    /\ page_pending s' = page_pending s
    /\ is_in_transfer s' = is_in_transfer s
    /\ complete s' = complete s.

(** A write-block frame that passes both checks at an address that is not
    a multiple of the block size. *)
Definition unaligned_frame : frame :=
  write_frame scenario_cfg 0x80C1 (repeat 0xAA 64).

(** The first block of the application as [flash_read_block] returns it. *)
Definition application_first_block (cfg : config) (s : state) : list Z :=
  map (fun i => flash s (CONFIG_APPLICATION_START cfg + Z.of_nat i))
      (seq 0 (Z.to_nat (CONFIG_BLOCK_SIZE cfg))).

(** Power-on with an installed application image (no byte of it is the
    fill value) and the request constant in the boot-up register. *)
Definition requested_power_on : state :=
  power_on scenario_cfg (fun _ => 0x21) REQUEST_SIG 0.

(** Power-on of a blank device whose button is held: program memory reads
    0xFF everywhere. *)
Definition blank_power_on : state :=
  power_on scenario_cfg (fun _ => 0xFF) 0x1234 1.

(** From reset to the end of a session: [canboot_main], then, in update
    mode, the handler calls of the frames received. *)
Definition boot_session (cfg : config) (fuel : nat) (cs : list command)
  : M boot_decision :=
  (d <- canboot_main cfg fuel ;;
   match d with
   | EnterBootloader => run cfg cs ;; ret d
   | JumpToApplication => ret d
   end)%canboot.

(** The calls recorded by the end of a computation. *)
Definition final_trace {A : Type} (o : outcome (A * state)) : option (list event) :=
  match o with
  | Done (_, s) => Some (trace s)
  | Fault _ => None
  end.

(** The write-block call for an address and a payload. *)
Definition write_block_command (cfg : config) (f : Z * list Z) : command :=
  WriteBlock (write_frame cfg (fst f) (snd f)).

(** A block that may follow the write at [a] while the page is still open:
    accepted, block-aligned and block-sized, at another position of the
    page buffer, and short of the page boundary. *)
Definition other_open_block (cfg : config) (a : Z) (f : Z * list Z) : Prop :=
  CONFIG_APPLICATION_START cfg <= fst f
  /\ (CONFIG_BLOCK_SIZE cfg | fst f)
  /\ Z.of_nat (length (snd f)) = CONFIG_BLOCK_SIZE cfg
  /\ page_pos cfg (fst f) <> page_pos cfg a
  /\ page_pos cfg (fst f) + CONFIG_BLOCK_SIZE cfg < flash_page_size cfg.

(** The calls between the write at [a] and the read, along which the page
    containing [a] is committed: none when the block itself ends the page;
    otherwise further blocks of the open page and then either the block
    that ends that page or an end-of-file whose flush address is the base
    of that page. *)
Inductive commits_page_of (cfg : config) (s : state) (a : Z)
  : list command -> Prop :=
| commit_by_this_block :
    page_pos cfg a + CONFIG_BLOCK_SIZE cfg = flash_page_size cfg ->
    commits_page_of cfg s a []
| commit_by_later_block (others : list (Z * list Z)) (a' : Z) (p' : list Z) :
    page_pos cfg a + CONFIG_BLOCK_SIZE cfg < flash_page_size cfg ->
    Forall (other_open_block cfg a) others ->
    CONFIG_APPLICATION_START cfg <= a' ->
    0 <= a' < 2 ^ 32 ->
    Z.of_nat (length p') = CONFIG_BLOCK_SIZE cfg ->
    page_pos cfg a' + CONFIG_BLOCK_SIZE cfg = flash_page_size cfg ->
    a' - page_pos cfg a' = a - page_pos cfg a ->
    commits_page_of cfg s a
      (map (write_block_command cfg) others ++ [WriteBlock (write_frame cfg a' p')])
| commit_by_eof (others : list (Z * list Z)) (d : frame) :
    page_pos cfg a + CONFIG_BLOCK_SIZE cfg < flash_page_size cfg ->
    Forall (other_open_block cfg a) others ->
    wrap32 (last_page_address s + flash_page_size cfg) = a - page_pos cfg a ->
    commits_page_of cfg s a (map (write_block_command cfg) others ++ [Eof d]).

(** The block written at [a] sits in the open page, not yet committed. *)
Definition block_staged (cfg : config) (a : Z) (payload : list Z)
  (s0 s : state) : Prop :=
  flash_page_size cfg <= Z.of_nat (length (page_buffer s))
  /\ page_pending s = true
  /\ last_page_address s = last_page_address s0
  /\ forall i, (i < length payload)%nat ->
       nth (Z.to_nat (page_pos cfg a) + i) (page_buffer s) 0 = nth i payload 0.

(** Blocks written one after the other from address [a]. *)
Fixpoint contiguous_blocks (cfg : config) (a : Z) (payloads : list (list Z))
  : list command :=
  match payloads with
  | [] => []
  | p :: rest =>
      WriteBlock (write_frame cfg a p)
      :: contiguous_blocks cfg (a + CONFIG_BLOCK_SIZE cfg) rest
  end.

(** The write state while a contiguous session stands at address [a], in
    page [q] at offset [r], the application starting at page [k]: a page is
    pending exactly off a page boundary, one commit per page passed, and
    [last_page_address] is the page before once a page has been passed. *)
Definition tracks (cfg : config) (s : state) (a : Z) : Prop :=
  exists q r k,
    a = flash_page_size cfg * q + r
    /\ 0 <= r < flash_page_size cfg
    /\ CONFIG_APPLICATION_START cfg = flash_page_size cfg * k
    /\ 0 <= k
    /\ page_pending s = negb (r =? 0)
    /\ Z.of_nat (length (flash_commits (trace s))) = q - k
    /\ (k < q -> last_page_address s = flash_page_size cfg * (q - 1))
    /\ flash_page_size cfg <= Z.of_nat (length (page_buffer s)).

(** Whether a session contains the complete command. *)
Definition has_complete (cs : list command) : bool :=
  existsb (fun c => match c with Complete _ => true | _ => false end) cs.

(** How the loop of [enter_bootloader] is left: through [canbus_reboot()],
    or not yet when the input considered is used up. *)
Inductive loop_exit : Type := Rebooted | StillRunning.

(** [enter_bootloader]: each pass of the loop calls [sched_run_tasks()],
    whose tasks hand the frames received meanwhile to their handlers, and
    leaves the loop when [complete] is set and [canbus_tx_clear()] holds;
    then [udelay(100000)] and [canbus_reboot()].  A pass is given by the
    frames it handles and the answer [canbus_tx_clear()] would give;
    [sched_run_init()] touches none of the state kept here. *)
Fixpoint enter_bootloader (cfg : config) (passes : list (list command * bool))
  : M loop_exit :=
  match passes with
  | [] => ret StillRunning
  | (frames, tx_clear) :: rest =>
      (run cfg frames ;;
       done <- gets complete ;;
       if (done : bool) && tx_clear
       then udelay 100000 ;; ret Rebooted
       else enter_bootloader cfg rest)%canboot
  end.

(** Every byte is the erased-memory value. *)
Definition all_fill (l : list Z) : bool := forallb (fun b => b =? 0xFF) l.

(** The part of [check_double_reset] that has run when a reset arrives
    during its delay. *)
Definition check_double_reset_interrupted (cfg : config) : M unit :=
  (if negb (CONFIG_ENABLE_DOUBLE_RESET cfg) then ret tt
   else set_bootup_code REQUEST_SIG ;; udelay 500000)%canboot.

(** A device reset: the statics are initialised anew, program memory and
    the persistent register keep their contents. *)
Definition reset (cfg : config) (level : Z) (s : state) : state :=
  power_on cfg (flash s) (bootup_code s) level.

(** The state of a contiguous session standing at address [a] with the
    bytes [written] received so far (page [q], offset [r], application at
    page [k]): the pages passed are in flash, the bytes of the open page
    are at the front of the page buffer, and once a page has been
    committed the rest of the buffer up to the page size is 0xFF. *)
Definition image_written (cfg : config) (s : state) (a : Z) (written : list Z)
  : Prop :=
  exists q r k,
    a = flash_page_size cfg * q + r
    /\ 0 <= r < flash_page_size cfg
    /\ CONFIG_APPLICATION_START cfg = flash_page_size cfg * k
    /\ 0 <= k <= q
    /\ page_pending s = negb (r =? 0)
    /\ (k < q -> last_page_address s = flash_page_size cfg * (q - 1))
    /\ flash_page_size cfg <= Z.of_nat (length (page_buffer s))
    /\ Z.of_nat (length written) = a - CONFIG_APPLICATION_START cfg
    /\ (forall i, 0 <= i < flash_page_size cfg * (q - k) ->
          flash s (CONFIG_APPLICATION_START cfg + i)
          = nth (Z.to_nat i) written 0)
    /\ (forall j, 0 <= j < r ->
          nth (Z.to_nat j) (page_buffer s) 0
          = nth (Z.to_nat (flash_page_size cfg * (q - k) + j)) written 0)
    /\ (k < q -> forall j, r <= j < flash_page_size cfg ->
          nth (Z.to_nat j) (page_buffer s) 0 = 0xFF).

(** The transfer flag after a session: set by every read-block and
    write-block, cleared by end-of-file, left alone by connect and
    complete. *)
Definition transfer_after (flag : bool) (cs : list command) : bool :=
  fold_left (fun b c => match c with
                        | ReadBlock _ | WriteBlock _ => true
                        | Eof _ => false
                        | Connect _ | Complete _ => b
                        end) cs flag.

(** Power-on with an application installed, no request pending and the
    button released. *)
Definition installed_power_on : state :=
  power_on scenario_cfg (fun _ => 0x21) 0 0.

(** The scenario configuration with double-reset detection enabled. *)
Definition double_reset_cfg : config :=
  {| CONFIG_MAX_FLASH_PAGE_SIZE := 256;
     CONFIG_APPLICATION_START := 0x8000;
     CONFIG_BLOCK_SIZE := 64;
     CONFIG_MCU := "stm32f103xe"%string;
     CONFIG_ENABLE_BUTTON := false;
     CONFIG_ENABLE_DOUBLE_RESET := true;
     PROTO_VERSION := 0x00010000;
     flash_page_size := 256;
     button_gpio := 0;
     button_high := 1;
     button_pullup := 0 |}.

(** A configuration with blocks and pages of 256 bytes. *)
Definition large_block_cfg : config :=
  {| CONFIG_MAX_FLASH_PAGE_SIZE := 256;
     CONFIG_APPLICATION_START := 0x8000;
     CONFIG_BLOCK_SIZE := 256;
     CONFIG_MCU := "stm32f103xe"%string;
     CONFIG_ENABLE_BUTTON := false;
     CONFIG_ENABLE_DOUBLE_RESET := false;
     PROTO_VERSION := 0x00010000;
     flash_page_size := 256;
     button_gpio := 0;
     button_high := 1;
     button_pullup := 0 |}.

(** Five blocks of 64 bytes: one page and a quarter. *)
Definition five_blocks : list (list Z) :=
  [repeat 1 64; repeat 2 64; repeat 3 64; repeat 4 64; repeat 5 64].



(** * Properties *)

(** ** Arithmetic and list helpers *)

Lemma wrap32_small (x : Z) : 0 <= x < 2 ^ 32 -> wrap32 x = x.
Proof. intros H. unfold wrap32. apply Z.mod_small. exact H. Qed.

Lemma memcpy_at_done (buf : list Z) (pos : Z) (src : list Z) (n : Z) :
  0 <= pos -> 0 <= n ->
  pos + n <= Z.of_nat (length buf) ->
  n <= Z.of_nat (length src) ->
  memcpy_at buf pos src n =
  Done (firstn (Z.to_nat pos) buf ++ firstn (Z.to_nat n) src
        ++ skipn (Z.to_nat (pos + n)) buf).
Proof.
  intros Hp Hn Hb Hs. unfold memcpy_at.
  apply Z.leb_le in Hp, Hn, Hb, Hs.
  rewrite Hp, Hn, Hb, Hs. reflexivity.
Qed.

Lemma memcpy_at_splice (buf : list Z) (pos : Z) (src : list Z) :
  0 <= pos ->
  pos + Z.of_nat (length src) <= Z.of_nat (length buf) ->
  memcpy_at buf pos src (Z.of_nat (length src)) =
  Done (splice buf (Z.to_nat pos) src).
Proof.
  intros Hp Hb. rewrite memcpy_at_done by lia.
  unfold splice. rewrite Nat2Z.id, firstn_all.
  replace (Z.to_nat (pos + Z.of_nat (length src)))
    with (Z.to_nat pos + length src)%nat by lia.
  reflexivity.
Qed.

Lemma length_splice (buf : list Z) (pos : nat) (src : list Z) :
  (pos + length src <= length buf)%nat ->
  length (splice buf pos src) = length buf.
Proof.
  intros H. unfold splice.
  rewrite !length_app, length_firstn, length_skipn. lia.
Qed.

Lemma nth_splice_inside (buf : list Z) (pos : nat) (src : list Z) (i : nat) (d : Z) :
  (pos <= length buf)%nat -> (i < length src)%nat ->
  nth (pos + i) (splice buf pos src) d = nth i src d.
Proof.
  intros Hp Hi. unfold splice.
  rewrite app_nth2; rewrite length_firstn, Nat.min_l by lia; [|lia].
  replace (pos + i - pos)%nat with i by lia.
  apply app_nth1. exact Hi.
Qed.

Lemma nth_splice_outside (buf : list Z) (pos : nat) (src : list Z) (i : nat) (d : Z) :
  (pos + length src <= length buf)%nat ->
  (i < pos \/ pos + length src <= i)%nat ->
  nth i (splice buf pos src) d = nth i buf d.
Proof.
  intros Hb [Hi | Hi]; unfold splice.
  - rewrite app_nth1 by (rewrite length_firstn; lia).
    rewrite nth_firstn. apply Nat.ltb_lt in Hi. rewrite Hi. reflexivity.
  - rewrite app_nth2; rewrite length_firstn, Nat.min_l by lia; [|lia].
    rewrite app_nth2 by lia.
    rewrite nth_skipn. f_equal. lia.
Qed.

Lemma firstn_splice_upto (buf : list Z) (pos : nat) (src : list Z) (n : nat) :
  n = (pos + length src)%nat ->
  (n <= length buf)%nat ->
  firstn n (splice buf pos src) = firstn pos buf ++ src.
Proof.
  intros -> Hb. unfold splice. rewrite app_assoc.
  rewrite firstn_app.
  rewrite length_app, length_firstn, Nat.min_l by lia.
  replace (pos + length src - (pos + length src))%nat with 0%nat by lia.
  rewrite firstn_O, app_nil_r.
  apply firstn_all2. rewrite length_app, length_firstn. lia.
Qed.

Lemma map_seq_eq (f : nat -> Z) (l : list Z) :
  (forall i, (i < length l)%nat -> f i = nth i l 0) ->
  map f (seq 0 (length l)) = l.
Proof.
  intros H. apply nth_ext with (d := 0) (d' := 0).
  - rewrite length_map, length_seq. reflexivity.
  - intros i Hi. rewrite length_map, length_seq in Hi.
    rewrite <- H by exact Hi.
    rewrite nth_indep with (d' := f 0%nat) by (rewrite length_map, length_seq; exact Hi).
    rewrite map_nth, seq_nth by exact Hi. reflexivity.
Qed.

(** ** What one call of each handler does *)

Ltac unfold_monad :=
  unfold command_respond_ack, command_respond_command_error,
    flash_write_page, flash_read_block, flash_complete,
    get_bootup_code, set_bootup_code, udelay, gpio_in_setup, gpio_in_read;
  unfold bind, ret, gets, modify, lift.

Ltac simpl_state :=
  cbn [page_buffer last_page_address page_pending is_in_transfer complete
       flash bootup_code gpio_level trace
       with_page_buffer with_last_page_address with_page_pending
       with_is_in_transfer with_complete with_flash with_bootup_code
       with_event].

(** A request failing either check is answered with the command error; the
    only static touched is [is_in_transfer], set before the checks. *)
Lemma write_block_rejected (cfg : config) (data : frame) (s : state) :
  write_block_accepted cfg data = false ->
  command_write_block cfg data s =
  Done (tt, with_event EvCommandError (with_is_in_transfer true s)).
Proof.
  unfold write_block_accepted, command_write_block. intros H.
  unfold_monad.
  destruct (command_get_arg_count data =? CONFIG_BLOCK_SIZE cfg / 4 + 1); cbn.
  - cbn in H. apply negb_false_iff in H. rewrite H. reflexivity.
  - reflexivity.
Qed.

Lemma write_page_run (cfg : config) (page_address : Z) (s : state) :
  write_page cfg page_address s = Done (tt, committed cfg page_address s).
Proof. reflexivity. Qed.

Lemma write_block_accepted_run (cfg : config) (data : frame) (s : state) (buf' : list Z) :
  write_block_accepted cfg data = true ->
  flash_page_size cfg <> 0 ->
  memcpy_at (page_buffer s) (page_pos cfg (data_1 data)) (data_2_bytes data)
            (CONFIG_BLOCK_SIZE cfg) = Done buf' ->
  command_write_block cfg data s =
  Done (tt,
        with_event (EvAck CMD_RX_BLOCK [data_1 data] [])
          (if wrap32 (page_pos cfg (data_1 data) + CONFIG_BLOCK_SIZE cfg)
              =? flash_page_size cfg
           then committed cfg (wrap32 (data_1 data - page_pos cfg (data_1 data)))
                          (staged buf' s)
           else staged buf' s)).
Proof.
  unfold write_block_accepted, command_write_block, page_pos, flash_get_page_size.
  intros Hacc Hps Hcpy.
  apply andb_true_iff in Hacc. destruct Hacc as [Hcount Haddr].
  apply negb_true_iff in Haddr.
  unfold bind at 1. unfold modify at 1.
  rewrite Hcount, Haddr. cbn [negb].
  unfold umod. apply Z.eqb_neq in Hps. rewrite Hps.
  unfold bind at 1. unfold lift at 1.
  unfold bind at 1. unfold gets at 1.
  cbn [page_buffer with_is_in_transfer].
  rewrite Hcpy.
  unfold bind at 1. unfold lift at 1.
  unfold bind at 1. unfold modify at 1.
  unfold bind at 1. unfold modify at 1.
  unfold bind at 1.
  destruct (wrap32 (data_1 data mod flash_page_size cfg + CONFIG_BLOCK_SIZE cfg)
            =? flash_page_size cfg).
  - rewrite write_page_run. reflexivity.
  - reflexivity.
Qed.

(** [command_eof], by whether a page is pending. *)
Lemma eof_run (cfg : config) (data : frame) (s : state) :
  flash_page_size cfg <> 0 ->
  command_eof cfg data s =
  let s1 := with_is_in_transfer false s in
  let s2 := if page_pending s
            then committed cfg (wrap32 (last_page_address s + flash_page_size cfg)) s1
            else s1 in
  Done (tt,
        with_event
          (EvAck CMD_RX_EOF
             [wrap32 (wrap32 (last_page_address s2 - CONFIG_APPLICATION_START cfg)
                      / flash_page_size cfg + 1)] [])
          (with_event EvFlashComplete s2)).
Proof.
  intros Hps. apply Z.eqb_neq in Hps.
  unfold command_eof, flash_get_page_size.
  unfold bind at 1. unfold modify at 1.
  unfold bind at 1. unfold gets at 1.
  cbn [page_pending with_is_in_transfer].
  destruct (page_pending s).
  - unfold bind at 1. unfold bind at 1. unfold gets at 1.
    cbn [last_page_address with_is_in_transfer].
    rewrite write_page_run.
    unfold_monad. unfold udiv. rewrite Hps. reflexivity.
  - unfold_monad. unfold udiv. rewrite Hps. reflexivity.
Qed.

Lemma read_block_run (cfg : config) (data : frame) (s : state) :
  command_read_block cfg data s =
  Done (tt,
        with_event
          (EvAck CMD_REQ_BLOCK [data_1 data]
             (firstn (Z.to_nat (4 * (CONFIG_BLOCK_SIZE cfg / 4)))
                (map (fun i => flash s (data_1 data + Z.of_nat i))
                     (seq 0 (Z.to_nat (CONFIG_BLOCK_SIZE cfg))))))
          (with_is_in_transfer true s)).
Proof. reflexivity. Qed.

Lemma run_cons (cfg : config) (c : command) (cs : list command) (s s1 : state) :
  handle cfg c s = Done (tt, s1) ->
  run cfg (c :: cs) s = run cfg cs s1.
Proof. intros H. cbn [run]. unfold bind. rewrite H. reflexivity. Qed.

Lemma run_app (cfg : config) (cs1 cs2 : list command) (s s1 : state) :
  run cfg cs1 s = Done (tt, s1) ->
  run cfg (cs1 ++ cs2) s = run cfg cs2 s1.
Proof.
  revert s. induction cs1 as [|c cs1 IH]; intros s H.
  - cbn in H. unfold ret in H. injection H as <-. reflexivity.
  - cbn [run app] in *. unfold bind in *.
    destruct (handle cfg c s) as [[[] s']|f]; [|discriminate].
    apply IH. exact H.
Qed.

(** ** Rejected requests *)

(** C4: a write-block whose address is below the application start, or
    whose argument count is not one block plus header, is answered with the
    command error and leaves [last_page_address], [page_pending] and
    [page_buffer] as they were; nothing reaches the buffer and no flash
    write is issued (the only call recorded is the error response, and
    program memory is unchanged). *)
Theorem write_block_rejected_keeps_write_state
  (cfg : config) (data : frame) (s : state) :
  data_1 data < CONFIG_APPLICATION_START cfg
  \/ command_get_arg_count data <> CONFIG_BLOCK_SIZE cfg / 4 + 1 ->
  exists s',
    command_write_block cfg data s = Done (tt, s')
    /\ trace s' = trace s ++ [EvCommandError]
    /\ last_page_address s' = last_page_address s
    /\ page_pending s' = page_pending s
    /\ page_buffer s' = page_buffer s
    /\ flash s' = flash s.
Proof.
  intros H.
  exists (with_event EvCommandError (with_is_in_transfer true s)).
  split; [|repeat split].
  apply write_block_rejected. unfold write_block_accepted.
  destruct H as [H | H].
  - apply Z.ltb_lt in H. rewrite H. apply andb_false_r.
  - apply Z.eqb_neq in H. rewrite H. reflexivity.
Qed.

Lemma write_block_rejected_keeps_write_state_witness :
  exists s',
    command_write_block scenario_cfg low_address_frame scenario_power_on
    = Done (tt, s')
    /\ trace s' = trace scenario_power_on ++ [EvCommandError]
    /\ last_page_address s' = last_page_address scenario_power_on
    /\ page_pending s' = page_pending scenario_power_on
    /\ page_buffer s' = page_buffer scenario_power_on
    /\ flash s' = flash scenario_power_on.
Proof.
  apply (write_block_rejected_keeps_write_state
           scenario_cfg low_address_frame scenario_power_on).
  left. vm_compute. reflexivity.
Defined.

(** C3, counterexample: at power-on the transfer flag is clear; a
    write-block below the application start is rejected, yet the flag is
    set afterwards. *)
Lemma rejected_write_block_sets_transfer_flag :
  data_1 low_address_frame < CONFIG_APPLICATION_START scenario_cfg
  /\ ~ rejected_without_any_change scenario_cfg low_address_frame scenario_power_on.
Proof.
  split; [vm_compute; reflexivity|].
  intros (s' & Hrun & _ & _ & _ & _ & Hflag & _).
  rewrite write_block_rejected in Hrun by (vm_compute; reflexivity).
  injection Hrun as <-. cbn in Hflag. discriminate.
Qed.

(** C3, amended: an invalid write-block is answered with the command error
    and leaves [page_buffer], [last_page_address], [page_pending] and
    [complete] unchanged; [is_in_transfer] is set, since the handler sets
    it before it validates. *)
Theorem write_block_rejected_state_change
  (cfg : config) (data : frame) (s : state) :
  data_1 data < CONFIG_APPLICATION_START cfg
  \/ command_get_arg_count data <> CONFIG_BLOCK_SIZE cfg / 4 + 1 ->
  exists s',
    command_write_block cfg data s = Done (tt, s')
    /\ trace s' = trace s ++ [EvCommandError]
    /\ page_buffer s' = page_buffer s
    /\ last_page_address s' = last_page_address s
    /\ page_pending s' = page_pending s
    /\ complete s' = complete s
    /\ is_in_transfer s' = true.
Proof.
  intros H.
  exists (with_event EvCommandError (with_is_in_transfer true s)).
  split; [|repeat split].
  apply write_block_rejected. unfold write_block_accepted.
  destruct H as [H | H].
  - apply Z.ltb_lt in H. rewrite H. apply andb_false_r.
  - apply Z.eqb_neq in H. rewrite H. reflexivity.
Qed.

Lemma write_block_rejected_state_change_witness :
  exists s',
    command_write_block scenario_cfg low_address_frame scenario_power_on
    = Done (tt, s')
    /\ trace s' = trace scenario_power_on ++ [EvCommandError]
    /\ page_buffer s' = page_buffer scenario_power_on
    /\ last_page_address s' = last_page_address scenario_power_on
    /\ page_pending s' = page_pending scenario_power_on
    /\ complete s' = complete scenario_power_on
    /\ is_in_transfer s' = true.
Proof.
  apply (write_block_rejected_state_change
           scenario_cfg low_address_frame scenario_power_on).
  left. vm_compute. reflexivity.
Defined.

(** ** The staging copy and the page boundary *)

(** C2, counterexample: address 0x80C1 is at or above the application start
    and the argument count is right, so the request passes validation, yet
    its offset 193 plus the block size 64 exceeds the page size 256; the
    copy would leave the 256-byte buffer. *)
Lemma accepted_block_can_cross_page_end :
  write_block_accepted scenario_cfg unaligned_frame = true
  /\ ~ (page_pos scenario_cfg (data_1 unaligned_frame)
        + CONFIG_BLOCK_SIZE scenario_cfg <= flash_page_size scenario_cfg)
  /\ command_write_block scenario_cfg unaligned_frame scenario_power_on
     = Fault BufferOverrun.
Proof.
  split; [vm_compute; reflexivity|]. split.
  - vm_compute. intros H. apply H. reflexivity.
  - vm_compute. reflexivity.
Qed.

(** The offset of a block-aligned address is a multiple of the block size
    that leaves room for one block before the page ends. *)
Lemma page_pos_aligned (cfg : config) (a : Z) :
  0 < CONFIG_BLOCK_SIZE cfg ->
  0 < flash_page_size cfg ->
  (CONFIG_BLOCK_SIZE cfg | flash_page_size cfg) ->
  (CONFIG_BLOCK_SIZE cfg | a) ->
  0 <= page_pos cfg a
  /\ page_pos cfg a + CONFIG_BLOCK_SIZE cfg <= flash_page_size cfg
  /\ (CONFIG_BLOCK_SIZE cfg | page_pos cfg a).
Proof.
  intros Hbs Hps [m Hm] [k Hk].
  unfold page_pos, flash_get_page_size. rewrite Hk, Hm.
  assert (0 < m) by nia.
  rewrite Z.mul_mod_distr_r by lia.
  pose proof (Z.mod_pos_bound k m ltac:(lia)).
  repeat split; try nia.
  exists (k mod m). reflexivity.
Qed.

Lemma memcpy_at_block (buf : list Z) (pos : Z) (src : list Z) (n : Z) :
  0 <= pos -> 0 <= n ->
  pos + n <= Z.of_nat (length buf) ->
  n <= Z.of_nat (length src) ->
  memcpy_at buf pos src n
  = Done (splice buf (Z.to_nat pos) (firstn (Z.to_nat n) src)).
Proof.
  intros Hp Hn Hb Hs. rewrite memcpy_at_done by assumption.
  unfold splice. rewrite length_firstn, Nat.min_l by lia.
  replace (Z.to_nat (pos + n)) with (Z.to_nat pos + Z.to_nat n)%nat by lia.
  reflexivity.
Qed.

(** C2, amended: for a write-block that passes validation and whose address
    is a multiple of the block size, with the block size dividing the page
    size (the page fitting [page_buffer] and the frame holding a block),
    the staging copy of the handler, [memcpy] of [CONFIG_BLOCK_SIZE] bytes
    to [&page_buffer[page_pos]], satisfies offset + block size <= page
    size: the copy is defined, it changes no byte of [page_buffer] at or
    beyond the page size, and the handler goes on from the buffer it
    leaves. *)
Theorem aligned_block_stays_in_page
  (cfg : config) (data : frame) (s : state) :
  write_block_accepted cfg data = true ->
  0 < CONFIG_BLOCK_SIZE cfg ->
  0 < flash_page_size cfg ->
  (CONFIG_BLOCK_SIZE cfg | flash_page_size cfg) ->
  (CONFIG_BLOCK_SIZE cfg | data_1 data) ->
  flash_page_size cfg <= Z.of_nat (length (page_buffer s)) ->
  CONFIG_BLOCK_SIZE cfg <= Z.of_nat (length (data_2_bytes data)) ->
  exists buf',
    memcpy_at (page_buffer s) (page_pos cfg (data_1 data))
              (data_2_bytes data) (CONFIG_BLOCK_SIZE cfg) = Done buf'
    /\ page_pos cfg (data_1 data) + CONFIG_BLOCK_SIZE cfg
       <= flash_page_size cfg
    /\ length buf' = length (page_buffer s)
    /\ (forall i, flash_page_size cfg <= Z.of_nat i ->
                  nth i buf' 0 = nth i (page_buffer s) 0)
    /\ command_write_block cfg data s
       = Done (tt,
               with_event (EvAck CMD_RX_BLOCK [data_1 data] [])
                 (if wrap32 (page_pos cfg (data_1 data) + CONFIG_BLOCK_SIZE cfg)
                     =? flash_page_size cfg
                  then committed cfg
                         (wrap32 (data_1 data - page_pos cfg (data_1 data)))
                         (staged buf' s)
                  else staged buf' s)).
Proof.
  intros Hacc Hbs Hps Hdiv Hal Hbuf Hsrc.
  destruct (page_pos_aligned cfg (data_1 data) Hbs Hps Hdiv Hal)
    as (Hpos & Hfit & _).
  assert (Hcpy := memcpy_at_block (page_buffer s) (page_pos cfg (data_1 data))
                    (data_2_bytes data) (CONFIG_BLOCK_SIZE cfg)
                    Hpos ltac:(lia) ltac:(lia) Hsrc).
  assert (Hlen : length (firstn (Z.to_nat (CONFIG_BLOCK_SIZE cfg))
                                (data_2_bytes data))
                 = Z.to_nat (CONFIG_BLOCK_SIZE cfg))
    by (rewrite length_firstn; lia).
  eexists. split; [exact Hcpy|]. split; [exact Hfit|].
  split; [apply length_splice; lia|].
  split.
  - intros i Hi. apply nth_splice_outside; lia.
  - apply write_block_accepted_run; [exact Hacc | lia | exact Hcpy].
Qed.

Lemma aligned_block_stays_in_page_witness :
  exists buf',
    memcpy_at (page_buffer scenario_power_on) (page_pos scenario_cfg 0x80C0)
              (repeat 0xAA 64) (CONFIG_BLOCK_SIZE scenario_cfg) = Done buf'
    /\ page_pos scenario_cfg 0x80C0 + CONFIG_BLOCK_SIZE scenario_cfg
       <= flash_page_size scenario_cfg.
Proof.
  destruct (aligned_block_stays_in_page scenario_cfg
              (write_frame scenario_cfg 0x80C0 (repeat 0xAA 64))
              scenario_power_on)
    as (buf' & Hcpy & Hfit & _).
  - reflexivity.
  - reflexivity.
  - reflexivity.
  - exists 4. reflexivity.
  - exists 515. reflexivity.
  - vm_compute. discriminate.
  - vm_compute. discriminate.
  - exists buf'. split; [exact Hcpy | exact Hfit].
Defined.

(** ** Accepted blocks *)

(** One accepted block whose copy stays inside the buffer: the block is
    staged at its offset and, when it ends on the page boundary, the page is
    committed at once. *)
Lemma write_block_step (cfg : config) (a : Z) (payload : list Z) (s : state) :
  CONFIG_APPLICATION_START cfg <= a ->
  0 < flash_page_size cfg ->
  Z.of_nat (length payload) = CONFIG_BLOCK_SIZE cfg ->
  page_pos cfg a + CONFIG_BLOCK_SIZE cfg <= Z.of_nat (length (page_buffer s)) ->
  command_write_block cfg (write_frame cfg a payload) s =
  Done (tt,
        with_event (EvAck CMD_RX_BLOCK [a] [])
          (let buf' := splice (page_buffer s) (Z.to_nat (page_pos cfg a)) payload in
           if wrap32 (page_pos cfg a + CONFIG_BLOCK_SIZE cfg) =? flash_page_size cfg
           then committed cfg (wrap32 (a - page_pos cfg a)) (staged buf' s)
           else staged buf' s)).
Proof.
  intros Ha Hps Hlen Hfit.
  assert (Hpos : 0 <= page_pos cfg a).
  { unfold page_pos, flash_get_page_size. apply Z.mod_pos_bound. exact Hps. }
  apply (write_block_accepted_run cfg (write_frame cfg a payload) s).
  - unfold write_block_accepted, write_frame. cbn.
    rewrite Z.eqb_refl. apply Z.ltb_ge in Ha. rewrite Ha. reflexivity.
  - lia.
  - cbn [write_frame data_1 data_2_bytes]. rewrite <- Hlen.
    apply memcpy_at_splice; lia.
Qed.

(** The block that ends on the page boundary commits the page. *)
Lemma write_block_fills_page (cfg : config) (a : Z) (payload : list Z) (s : state) :
  CONFIG_APPLICATION_START cfg <= a ->
  0 <= a < 2 ^ 32 ->
  0 < flash_page_size cfg < 2 ^ 32 ->
  Z.of_nat (length payload) = CONFIG_BLOCK_SIZE cfg ->
  flash_page_size cfg <= Z.of_nat (length (page_buffer s)) ->
  page_pos cfg a + CONFIG_BLOCK_SIZE cfg = flash_page_size cfg ->
  command_write_block cfg (write_frame cfg a payload) s =
  Done (tt,
        with_event (EvAck CMD_RX_BLOCK [a] [])
          (committed cfg (a - page_pos cfg a)
             (staged (splice (page_buffer s) (Z.to_nat (page_pos cfg a)) payload) s))).
Proof.
  intros Ha Hu32 Hps Hlen Hbuf Hfill.
  rewrite write_block_step by lia.
  cbv zeta. rewrite Hfill, wrap32_small, Z.eqb_refl by lia.
  rewrite wrap32_small; [reflexivity|].
  assert (0 <= page_pos cfg a < flash_page_size cfg)
    by (apply Z.mod_pos_bound; lia).
  assert (page_pos cfg a <= a)
    by (unfold page_pos, flash_get_page_size; apply Z.mod_le; lia).
  lia.
Qed.

(** A block that stops short of the page boundary is only staged. *)
Lemma write_block_stages (cfg : config) (a : Z) (payload : list Z) (s : state) :
  CONFIG_APPLICATION_START cfg <= a ->
  0 < flash_page_size cfg < 2 ^ 32 ->
  Z.of_nat (length payload) = CONFIG_BLOCK_SIZE cfg ->
  flash_page_size cfg <= Z.of_nat (length (page_buffer s)) ->
  page_pos cfg a + CONFIG_BLOCK_SIZE cfg < flash_page_size cfg ->
  command_write_block cfg (write_frame cfg a payload) s =
  Done (tt,
        with_event (EvAck CMD_RX_BLOCK [a] [])
          (staged (splice (page_buffer s) (Z.to_nat (page_pos cfg a)) payload) s)).
Proof.
  intros Ha Hps Hlen Hbuf Hshort.
  assert (0 <= page_pos cfg a < flash_page_size cfg)
    by (apply Z.mod_pos_bound; lia).
  rewrite write_block_step by lia.
  cbv zeta. rewrite wrap32_small by lia.
  replace (page_pos cfg a + CONFIG_BLOCK_SIZE cfg =? flash_page_size cfg)
    with false by (symmetry; apply Z.eqb_neq; lia).
  reflexivity.
Qed.

(** C5: with application start 0x8000, blocks of 64 bytes and pages of 256
    bytes, four write-block calls at 0x8000, 0x8040, 0x8080 and 0x80C0 issue
    exactly one flash commit, during the fourth call (it sits between the
    third and the fourth acknowledgement), at 0x8000, and the page handed to
    flash is the four payloads in order; in general a block with
    offset + block size = page size commits the page at address - offset at
    once, after which the buffer holds the fill value throughout and
    [page_pending] is clear. *)
Theorem full_page_commits_once :
  (forall (cfg : config) (s : state) (p1 p2 p3 p4 : list Z),
      CONFIG_APPLICATION_START cfg = 0x8000 ->
      CONFIG_BLOCK_SIZE cfg = 64 ->
      flash_page_size cfg = 256 ->
      256 <= CONFIG_MAX_FLASH_PAGE_SIZE cfg ->
      length (page_buffer s) = Z.to_nat (CONFIG_MAX_FLASH_PAGE_SIZE cfg) ->
      length p1 = 64%nat -> length p2 = 64%nat ->
      length p3 = 64%nat -> length p4 = 64%nat ->
      exists s' page,
        run cfg [WriteBlock (write_frame cfg 0x8000 p1);
                 WriteBlock (write_frame cfg 0x8040 p2);
                 WriteBlock (write_frame cfg 0x8080 p3);
                 WriteBlock (write_frame cfg 0x80C0 p4)] s = Done (tt, s')
        /\ trace s' = trace s ++ [EvAck CMD_RX_BLOCK [0x8000] [];
                                  EvAck CMD_RX_BLOCK [0x8040] [];
                                  EvAck CMD_RX_BLOCK [0x8080] [];
                                  EvFlashWritePage 0x8000 page;
                                  EvAck CMD_RX_BLOCK [0x80C0] []]
        /\ firstn 256 page = p1 ++ p2 ++ p3 ++ p4
        /\ page_buffer s'
           = repeat 0xFF (Z.to_nat (CONFIG_MAX_FLASH_PAGE_SIZE cfg))
        /\ page_pending s' = false)
  /\
  (forall (cfg : config) (s : state) (a : Z) (payload : list Z),
      CONFIG_APPLICATION_START cfg <= a ->
      0 <= a < 2 ^ 32 ->
      0 < flash_page_size cfg < 2 ^ 32 ->
      Z.of_nat (length payload) = CONFIG_BLOCK_SIZE cfg ->
      flash_page_size cfg <= Z.of_nat (length (page_buffer s)) ->
      page_pos cfg a + CONFIG_BLOCK_SIZE cfg = flash_page_size cfg ->
      exists s',
        command_write_block cfg (write_frame cfg a payload) s = Done (tt, s')
        /\ trace s' = trace s
                      ++ [EvFlashWritePage (a - page_pos cfg a)
                            (splice (page_buffer s) (Z.to_nat (page_pos cfg a))
                                    payload);
                          EvAck CMD_RX_BLOCK [a] []]
        /\ last_page_address s' = a - page_pos cfg a
        /\ page_buffer s'
           = repeat 0xFF (Z.to_nat (CONFIG_MAX_FLASH_PAGE_SIZE cfg))
        /\ page_pending s' = false).
Proof.
  split.
  - intros cfg s p1 p2 p3 p4 Happ Hbs Hps Hmax Hbuf H1 H2 H3 H4.
    assert (Hpos : forall a, page_pos cfg a = a mod 256)
      by (intros a; unfold page_pos, flash_get_page_size; rewrite Hps; reflexivity).
    assert (P1 : page_pos cfg 0x8000 = 0) by (rewrite Hpos; reflexivity).
    assert (P2 : page_pos cfg 0x8040 = 64) by (rewrite Hpos; reflexivity).
    assert (P3 : page_pos cfg 0x8080 = 128) by (rewrite Hpos; reflexivity).
    assert (P4 : page_pos cfg 0x80C0 = 192) by (rewrite Hpos; reflexivity).
    clear Hpos.
    set (b1 := splice (page_buffer s) 0 p1).
    set (b2 := splice b1 64 p2).
    set (b3 := splice b2 128 p3).
    set (b4 := splice b3 192 p4).
    assert (L1 : length b1 = length (page_buffer s))
      by (apply length_splice; lia).
    assert (L2 : length b2 = length (page_buffer s))
      by (unfold b2; rewrite length_splice; lia).
    assert (L3 : length b3 = length (page_buffer s))
      by (unfold b3; rewrite length_splice; lia).
    set (s1 := with_event (EvAck CMD_RX_BLOCK [0x8000] []) (staged b1 s)).
    set (s2 := with_event (EvAck CMD_RX_BLOCK [0x8040] []) (staged b2 s1)).
    set (s3 := with_event (EvAck CMD_RX_BLOCK [0x8080] []) (staged b3 s2)).
    set (s4 := with_event (EvAck CMD_RX_BLOCK [0x80C0] [])
                 (committed cfg 0x8000 (staged b4 s3))).
    assert (B1 : page_buffer s1 = b1) by reflexivity.
    assert (B2 : page_buffer s2 = b2) by reflexivity.
    assert (B3 : page_buffer s3 = b3) by reflexivity.
    exists s4, b4. split; [|split; [|split; [|split]]].
    + rewrite (run_cons cfg _ _ s s1).
      2:{ cbn [handle]. rewrite write_block_stages;
          rewrite ?P1, ?Happ, ?Hps, ?Hbs, ?H1; try lia. reflexivity. }
      rewrite (run_cons cfg _ _ s1 s2).
      2:{ cbn [handle]. rewrite write_block_stages;
          rewrite ?P2, ?Happ, ?Hps, ?Hbs, ?H2, ?B1, ?L1; try lia.
          reflexivity. }
      rewrite (run_cons cfg _ _ s2 s3).
      2:{ cbn [handle]. rewrite write_block_stages;
          rewrite ?P3, ?Happ, ?Hps, ?Hbs, ?H3, ?B2, ?L2; try lia.
          reflexivity. }
      rewrite (run_cons cfg _ _ s3 s4).
      2:{ cbn [handle]. rewrite write_block_fills_page;
          rewrite ?P4, ?Happ, ?Hps, ?Hbs, ?H4, ?B3, ?L3; try lia.
          reflexivity. }
      reflexivity.
    + cbn. rewrite <- !app_assoc. reflexivity.
    + unfold b4. rewrite (firstn_splice_upto b3 192 p4) by lia.
      unfold b3. rewrite (firstn_splice_upto b2 128 p3) by lia.
      unfold b2. rewrite (firstn_splice_upto b1 64 p2) by lia.
      unfold b1. rewrite (firstn_splice_upto (page_buffer s) 0 p1) by lia.
      cbn [firstn app]. rewrite <- !app_assoc. reflexivity.
    + reflexivity.
    + reflexivity.
  - intros cfg s a payload Ha Hu32 Hps Hlen Hbuf Hfill.
    eexists. split; [apply write_block_fills_page; assumption|].
    cbn. rewrite <- app_assoc. repeat split.
Qed.

Lemma full_page_commits_once_witness :
  (exists s' page,
      run scenario_cfg
          [WriteBlock (write_frame scenario_cfg 0x8000 (repeat 1 64));
           WriteBlock (write_frame scenario_cfg 0x8040 (repeat 2 64));
           WriteBlock (write_frame scenario_cfg 0x8080 (repeat 3 64));
           WriteBlock (write_frame scenario_cfg 0x80C0 (repeat 4 64))]
          scenario_power_on = Done (tt, s')
      /\ trace s' = trace scenario_power_on
                    ++ [EvAck CMD_RX_BLOCK [0x8000] [];
                        EvAck CMD_RX_BLOCK [0x8040] [];
                        EvAck CMD_RX_BLOCK [0x8080] [];
                        EvFlashWritePage 0x8000 page;
                        EvAck CMD_RX_BLOCK [0x80C0] []]
      /\ firstn 256 page
         = repeat 1 64 ++ repeat 2 64 ++ repeat 3 64 ++ repeat 4 64
      /\ page_buffer s'
         = repeat 0xFF (Z.to_nat (CONFIG_MAX_FLASH_PAGE_SIZE scenario_cfg))
      /\ page_pending s' = false)
  /\
  (exists s',
      command_write_block scenario_cfg
        (write_frame scenario_cfg 0x80C0 (repeat 4 64)) scenario_power_on
      = Done (tt, s')
      /\ trace s' = trace scenario_power_on
                    ++ [EvFlashWritePage (0x80C0 - page_pos scenario_cfg 0x80C0)
                          (splice (page_buffer scenario_power_on)
                                  (Z.to_nat (page_pos scenario_cfg 0x80C0))
                                  (repeat 4 64));
                        EvAck CMD_RX_BLOCK [0x80C0] []]
      /\ last_page_address s' = 0x80C0 - page_pos scenario_cfg 0x80C0
      /\ page_buffer s'
         = repeat 0xFF (Z.to_nat (CONFIG_MAX_FLASH_PAGE_SIZE scenario_cfg))
      /\ page_pending s' = false).
Proof.
  split.
  - apply (proj1 full_page_commits_once scenario_cfg scenario_power_on
             (repeat 1 64) (repeat 2 64) (repeat 3 64) (repeat 4 64));
      first [reflexivity | cbn; lia].
  - apply (proj2 full_page_commits_once scenario_cfg scenario_power_on
             0x80C0 (repeat 4 64));
      first [reflexivity | cbn; lia].
Defined.

(** ** Boot decision *)

Section BootDecision.

Variable cfg : config.

(** With every scanned byte equal to the fill value, the scan of
    [check_application_code] runs to the end of the block and returns 0,
    provided the block size fits the [uint8_t] counter. *)
Lemma check_loop_all_fill (buf : list Z) (fuel : nat) (i : Z) :
  0 <= i <= CONFIG_BLOCK_SIZE cfg ->
  CONFIG_BLOCK_SIZE cfg <= 255 ->
  (forall j, i <= j < CONFIG_BLOCK_SIZE cfg -> nth (Z.to_nat j) buf 0 = 0xFF) ->
  (Z.to_nat (CONFIG_BLOCK_SIZE cfg - i) < fuel)%nat ->
  check_application_code_loop cfg fuel i buf = Done 0.
Proof.
  revert i. induction fuel as [|fuel IH]; intros i Hi Hbs Hfill Hfuel; [lia|].
  cbn [check_application_code_loop].
  destruct (i <? CONFIG_BLOCK_SIZE cfg) eqn:Hlt; [|reflexivity].
  apply Z.ltb_lt in Hlt.
  rewrite Hfill by lia. cbn [Z.eqb Pos.eqb negb].
  assert (Hw : wrap8 (i + 1) = i + 1)
    by (unfold wrap8; apply Z.mod_small; lia).
  rewrite Hw. apply IH; try lia.
  intros j Hj. apply Hfill. lia.
Qed.

(** Whatever the buffer holds, the scan finishes when the block size fits
    the [uint8_t] counter. *)
Lemma check_loop_terminates (buf : list Z) (fuel : nat) (i : Z) :
  0 <= i <= CONFIG_BLOCK_SIZE cfg ->
  CONFIG_BLOCK_SIZE cfg <= 255 ->
  (Z.to_nat (CONFIG_BLOCK_SIZE cfg - i) < fuel)%nat ->
  exists r, check_application_code_loop cfg fuel i buf = Done r.
Proof.
  revert i. induction fuel as [|fuel IH]; intros i Hi Hbs Hfuel; [lia|].
  cbn [check_application_code_loop].
  destruct (i <? CONFIG_BLOCK_SIZE cfg) eqn:Hlt; [|eexists; reflexivity].
  apply Z.ltb_lt in Hlt.
  destruct (negb (nth (Z.to_nat i) buf 0 =? 255)); [eexists; reflexivity|].
  assert (Hw : wrap8 (i + 1) = i + 1)
    by (unfold wrap8; apply Z.mod_small; lia).
  rewrite Hw. apply IH; lia.
Qed.

Lemma length_application_first_block (s : state) :
  length (application_first_block cfg s) = Z.to_nat (CONFIG_BLOCK_SIZE cfg).
Proof. unfold application_first_block. rewrite length_map, length_seq. reflexivity. Qed.

(** [check_application_code] reads the block into the front of
    [page_buffer] and scans it there. *)
Lemma check_application_code_run (fuel : nat) (s : state) :
  0 <= CONFIG_BLOCK_SIZE cfg <= Z.of_nat (length (page_buffer s)) ->
  check_application_code cfg fuel s =
  let buf' := splice (page_buffer s) 0 (application_first_block cfg s) in
  match check_application_code_loop cfg fuel 0 buf' with
  | Done r => Done (r, with_page_buffer buf' s)
  | Fault f => Fault f
  end.
Proof.
  intros Hbs. unfold check_application_code.
  unfold bind at 1. unfold flash_read_block at 1. unfold gets at 1.
  unfold bind at 1. unfold gets at 1.
  fold (application_first_block cfg s).
  replace (CONFIG_BLOCK_SIZE cfg)
    with (Z.of_nat (length (application_first_block cfg s))) at 1
    by (rewrite length_application_first_block; lia).
  rewrite memcpy_at_splice
    by (rewrite ?length_application_first_block; lia).
  reflexivity.
Qed.

Lemma canboot_main_requested (fuel : nat) (s : state) :
  bootup_code s = REQUEST_SIG ->
  canboot_main cfg fuel s = Done (EnterBootloader, with_bootup_code 0 s).
Proof.
  intros H. unfold canboot_main.
  unfold bind at 1. unfold get_bootup_code, gets at 1.
  rewrite H, Z.eqb_refl. reflexivity.
Qed.

End BootDecision.

Lemma nth_application_first_block (cfg : config) (s : state) (i : nat) :
  (i < Z.to_nat (CONFIG_BLOCK_SIZE cfg))%nat ->
  nth i (application_first_block cfg s) 0
  = flash s (CONFIG_APPLICATION_START cfg + Z.of_nat i).
Proof.
  intros Hi. unfold application_first_block.
  rewrite nth_indep with (d' := flash s (CONFIG_APPLICATION_START cfg + Z.of_nat 0))
    by (rewrite length_map, length_seq; exact Hi).
  rewrite (map_nth (fun i => flash s (CONFIG_APPLICATION_START cfg + Z.of_nat i))).
  rewrite seq_nth by exact Hi. reflexivity.
Qed.

(** When the application's first block reads as the fill value throughout,
    [canboot_main] reaches [enter_bootloader] with the boot-up code
    cleared, whatever the boot-up code and the button were. *)
Lemma canboot_main_blank (cfg : config) (fuel : nat) (s : state) :
  0 <= CONFIG_BLOCK_SIZE cfg <= 255 ->
  CONFIG_BLOCK_SIZE cfg <= Z.of_nat (length (page_buffer s)) ->
  (Z.to_nat (CONFIG_BLOCK_SIZE cfg) < fuel)%nat ->
  (forall i, 0 <= i < CONFIG_BLOCK_SIZE cfg ->
             flash s (CONFIG_APPLICATION_START cfg + i) = 0xFF) ->
  exists s', canboot_main cfg fuel s = Done (EnterBootloader, s')
             /\ bootup_code s' = 0.
Proof.
  intros Hbs Hbuf Hfuel Hblank.
  destruct (Z.eq_dec (bootup_code s) REQUEST_SIG) as [Hsig | Hsig].
  - eexists. split; [apply canboot_main_requested; exact Hsig | reflexivity].
  - unfold canboot_main.
    unfold bind at 1. unfold get_bootup_code, gets at 1.
    apply Z.eqb_neq in Hsig. rewrite Hsig.
    unfold bind at 1. unfold bind at 1.
    rewrite check_application_code_run by lia. cbv zeta.
    rewrite check_loop_all_fill; try lia.
    + cbn. eexists. split; reflexivity.
    + intros j Hj.
      replace (Z.to_nat j) with (0 + Z.to_nat j)%nat by reflexivity.
      rewrite nth_splice_inside
        by (rewrite ?length_application_first_block; lia).
      rewrite nth_application_first_block by lia.
      rewrite Z2Nat.id by lia. apply Hblank. exact Hj.
Qed.

(** C6: at startup, a boot-up code equal to the request constant leads to
    update mode with the code cleared to 0, as the next read shows; and an
    application first block made of the fill value 0xFF alone leads to
    update mode whatever the boot-up code and the button state are.  (The
    scan's counter is a [uint8_t], so the block size is at most 255, and
    the block fits the page buffer.) *)
Theorem boot_enters_update_mode (cfg : config) (fuel : nat) (s : state) :
  (bootup_code s = REQUEST_SIG ->
   exists s', canboot_main cfg fuel s = Done (EnterBootloader, s')
              /\ get_bootup_code s' = Done (0, s'))
  /\
  (0 <= CONFIG_BLOCK_SIZE cfg <= 255 ->
   CONFIG_BLOCK_SIZE cfg <= Z.of_nat (length (page_buffer s)) ->
   (Z.to_nat (CONFIG_BLOCK_SIZE cfg) < fuel)%nat ->
   (forall i, 0 <= i < CONFIG_BLOCK_SIZE cfg ->
              flash s (CONFIG_APPLICATION_START cfg + i) = 0xFF) ->
   exists s', canboot_main cfg fuel s = Done (EnterBootloader, s')).
Proof.
  split.
  - intros Hsig. eexists. split.
    + apply canboot_main_requested. exact Hsig.
    + reflexivity.
  - intros Hbs Hbuf Hfuel Hblank.
    destruct (canboot_main_blank cfg fuel s Hbs Hbuf Hfuel Hblank) as (s' & H & _).
    exists s'. exact H.
Qed.

Lemma boot_enters_update_mode_witness :
  (exists s', canboot_main scenario_cfg 65 requested_power_on
              = Done (EnterBootloader, s')
              /\ get_bootup_code s' = Done (0, s'))
  /\
  (exists s', canboot_main scenario_cfg 65 blank_power_on
              = Done (EnterBootloader, s')).
Proof.
  split.
  - apply (proj1 (boot_enters_update_mode scenario_cfg 65 requested_power_on)).
    reflexivity.
  - apply (proj2 (boot_enters_update_mode scenario_cfg 65 blank_power_on)).
    + vm_compute. split; discriminate.
    + vm_compute. discriminate.
    + change (Z.to_nat (CONFIG_BLOCK_SIZE scenario_cfg)) with 64%nat. lia.
    + intros i _. reflexivity.
Defined.

(** ** Sessions from reset *)

(** C1, the code on the scenario: after a reset that enters update mode on
    request, one write-block of 64 bytes at 0x8000 followed by end-of-file
    issues its single flash commit at 0x100 ([last_page_address] is still
    its initial 0, to which the page size is added), pads the 64 bytes with
    the 192 zero bytes the buffer held since start-up, and reports a page
    count of 0xFFFF82; the scenario expects address 0x8000, padding 0xFF
    and count 1. *)
Theorem first_partial_page_scenario_runs_astray :
  final_trace
    (boot_session scenario_cfg 65
       [WriteBlock (write_frame scenario_cfg 0x8000 (repeat 0xAA 64));
        Eof empty_frame]
       requested_power_on)
  = Some [EvAck CMD_RX_BLOCK [0x8000] [];
          EvFlashWritePage 0x100 (repeat 0xAA 64 ++ repeat 0 192);
          EvFlashComplete;
          EvAck CMD_RX_EOF [0xFFFF82] []].
Proof. vm_compute. reflexivity. Qed.

(** C7, the code on a contiguous session shorter than one page: two blocks
    from the application start, then end-of-file.  One page is written to
    flash, yet the acknowledgement carries 0xFFFF82, the value of
    (last_page_address - application start) / page size + 1 in 32-bit
    arithmetic once the flush has set [last_page_address] to 0 + 0x100. *)
Theorem short_session_page_count_is_wrong :
  option_map
    (fun t => (length (flash_commits t), map fst (flash_commits t),
               last t EvCommandError))
    (final_trace
       (boot_session scenario_cfg 65
          [WriteBlock (write_frame scenario_cfg 0x8000 (repeat 0xAA 64));
           WriteBlock (write_frame scenario_cfg 0x8040 (repeat 0xBB 64));
           Eof empty_frame]
          requested_power_on))
  = Some (1%nat, [0x100],
          EvAck CMD_RX_EOF [wrap32 (wrap32 (0x100 - 0x8000) / 256 + 1)] [])
  /\ wrap32 (wrap32 (0x100 - 0x8000) / 256 + 1) = 0xFFFF82.
Proof. split; vm_compute; reflexivity. Qed.


(** ** Handlers and session state *)






(** ** The page buffer at bootloader entry *)

Lemma skipn_repeat (x : Z) (n m : nat) :
  skipn n (repeat x m) = repeat x (m - n).
Proof.
  revert m. induction n as [|n IH]; intros m.
  - rewrite Nat.sub_0_r. reflexivity.
  - destruct m as [|m]; [reflexivity|]. cbn. apply IH.
Qed.

Lemma flash_commits_app (t1 t2 : list event) :
  flash_commits (t1 ++ t2) = flash_commits t1 ++ flash_commits t2.
Proof. unfold flash_commits. apply flat_map_app. Qed.

(** [canboot_main] finishes when the block fits the buffer and the scan's
    counter; it commits nothing, leaves the write state alone, and leaves
    in [page_buffer] either what was there (request short-circuit) or the
    application's first block copied over the front. *)
Lemma canboot_main_effect (cfg : config) (fuel : nat) (s : state) :
  0 <= CONFIG_BLOCK_SIZE cfg <= 255 ->
  CONFIG_BLOCK_SIZE cfg <= Z.of_nat (length (page_buffer s)) ->
  (Z.to_nat (CONFIG_BLOCK_SIZE cfg) < fuel)%nat ->
  exists d s1,
    canboot_main cfg fuel s = Done (d, s1)
    /\ (bootup_code s = REQUEST_SIG -> d = EnterBootloader)
    /\ page_buffer s1
       = (if bootup_code s =? REQUEST_SIG then page_buffer s
          else splice (page_buffer s) 0 (application_first_block cfg s))
    /\ flash_commits (trace s1) = flash_commits (trace s)
    /\ last_page_address s1 = last_page_address s
    /\ page_pending s1 = page_pending s.
Proof.
  intros Hbs Hbuf Hfuel.
  destruct (Z.eq_dec (bootup_code s) REQUEST_SIG) as [Hsig | Hsig].
  - exists EnterBootloader, (with_bootup_code 0 s).
    rewrite canboot_main_requested by exact Hsig.
    rewrite Hsig, Z.eqb_refl. repeat split.
  - destruct (check_loop_terminates cfg
                (splice (page_buffer s) 0 (application_first_block cfg s))
                fuel 0 ltac:(lia) ltac:(lia) ltac:(lia)) as [r Hr].
    unfold canboot_main.
    unfold bind at 1. unfold get_bootup_code, gets at 1.
    pose proof Hsig as Hsig'. apply Z.eqb_neq in Hsig'. rewrite Hsig'.
    unfold bind at 1. unfold bind at 1.
    rewrite check_application_code_run by lia. cbv zeta. rewrite Hr.
    destruct (r =? 0).
    + eexists _, _. split; [reflexivity|]. cbn. repeat split.
    + unfold check_button_pressed, check_double_reset.
      destruct (CONFIG_ENABLE_BUTTON cfg); cbn [negb].
      * unfold_monad. cbn [gpio_level with_event with_page_buffer].
        destruct (gpio_level s =? button_high cfg);
          cbn [with_bootup_code];
          destruct (CONFIG_ENABLE_DOUBLE_RESET cfg); cbn [negb];
          (eexists _, _; split; [reflexivity|]);
          cbn; rewrite ?flash_commits_app, ?app_nil_r;
          repeat split; try contradiction.
      * unfold_monad.
        destruct (CONFIG_ENABLE_DOUBLE_RESET cfg); cbn [negb];
          (eexists _, _; split; [reflexivity|]);
          cbn; rewrite ?flash_commits_app, ?app_nil_r;
          repeat split; try contradiction.
Qed.

(** A block short of the page boundary followed by end-of-file, from a
    state in which no page has been committed yet: the flush goes to
    [last_page_address + page size] and hands over the buffer as staged. *)
Lemma partial_page_then_eof (cfg : config) (a : Z) (payload : list Z) (s : state) :
  CONFIG_APPLICATION_START cfg <= a ->
  0 < flash_page_size cfg < 2 ^ 32 ->
  Z.of_nat (length payload) = CONFIG_BLOCK_SIZE cfg ->
  flash_page_size cfg <= Z.of_nat (length (page_buffer s)) ->
  page_pos cfg a + CONFIG_BLOCK_SIZE cfg < flash_page_size cfg ->
  exists s2,
    run cfg [WriteBlock (write_frame cfg a payload); Eof empty_frame] s
    = Done (tt, s2)
    /\ flash_commits (trace s2)
       = flash_commits (trace s)
         ++ [(wrap32 (last_page_address s + flash_page_size cfg),
              splice (page_buffer s) (Z.to_nat (page_pos cfg a)) payload)].
Proof.
  intros Ha Hps Hlen Hbuf Hshort.
  eexists. split.
  - erewrite run_cons
      by (cbn [handle]; apply write_block_stages; assumption).
    cbn [run handle]. unfold bind at 1.
    rewrite eof_run by lia. cbv zeta. reflexivity.
  - cbn. rewrite !flash_commits_app. cbn. rewrite !app_nil_r. reflexivity.
Qed.

(** C9: the missing-application check reads the application's first block
    into [page_buffer].  Started from power-on, [canboot_main] therefore
    leaves in the buffer either the start-up zeros (the request constant
    short-circuits the check) or the application's first block followed by
    zeros, never an established fill value; a first page left partial and
    flushed by end-of-file is handed to flash with every byte outside the
    block written being what the buffer held at entry (zero throughout on
    the request path), not 0xFF. *)
Theorem page_buffer_is_stale_at_entry
  (cfg : config) (mem : Z -> Z) (code level : Z) (fuel : nat)
  (a : Z) (payload : list Z) :
  0 <= CONFIG_BLOCK_SIZE cfg <= 255 ->
  (Z.to_nat (CONFIG_BLOCK_SIZE cfg) < fuel)%nat ->
  0 < flash_page_size cfg < 2 ^ 32 ->
  flash_page_size cfg <= CONFIG_MAX_FLASH_PAGE_SIZE cfg ->
  CONFIG_APPLICATION_START cfg <= a ->
  Z.of_nat (length payload) = CONFIG_BLOCK_SIZE cfg ->
  page_pos cfg a + CONFIG_BLOCK_SIZE cfg < flash_page_size cfg ->
  exists d s1,
    canboot_main cfg fuel (power_on cfg mem code level) = Done (d, s1)
    /\ (code = REQUEST_SIG -> d = EnterBootloader)
    /\ page_buffer s1
       = (if code =? REQUEST_SIG
          then repeat 0 (Z.to_nat (CONFIG_MAX_FLASH_PAGE_SIZE cfg))
          else map (fun i => mem (CONFIG_APPLICATION_START cfg + Z.of_nat i))
                   (seq 0 (Z.to_nat (CONFIG_BLOCK_SIZE cfg)))
               ++ repeat 0 (Z.to_nat (CONFIG_MAX_FLASH_PAGE_SIZE cfg)
                            - Z.to_nat (CONFIG_BLOCK_SIZE cfg)))
    /\ exists s2 page,
         run cfg [WriteBlock (write_frame cfg a payload); Eof empty_frame] s1
         = Done (tt, s2)
         /\ flash_commits (trace s2) = [(wrap32 (0 + flash_page_size cfg), page)]
         /\ (forall i, (i < length payload)%nat ->
                       nth (Z.to_nat (page_pos cfg a) + i) page 0 = nth i payload 0)
         /\ (forall i, (i < Z.to_nat (page_pos cfg a)
                        \/ Z.to_nat (page_pos cfg a) + length payload <= i)%nat ->
                       nth i page 0 = nth i (page_buffer s1) 0)
         /\ (code = REQUEST_SIG ->
             forall i, (i < Z.to_nat (page_pos cfg a)
                        \/ Z.to_nat (page_pos cfg a) + length payload <= i)%nat ->
                       nth i page 0 = 0).
Proof.
  intros Hbs Hfuel Hps Hmax Ha Hlen Hshort.
  assert (Hpos : 0 <= page_pos cfg a < flash_page_size cfg)
    by (apply Z.mod_pos_bound; lia).
  set (s0 := power_on cfg mem code level).
  assert (Hbuf0 : length (page_buffer s0)
                  = Z.to_nat (CONFIG_MAX_FLASH_PAGE_SIZE cfg))
    by apply repeat_length.
  destruct (canboot_main_effect cfg fuel s0) as (d & s1 & Hrun & Hd & Hpb & Hc & Hl & _);
    try lia.
  assert (Hpb' : page_buffer s1
       = (if code =? REQUEST_SIG
          then repeat 0 (Z.to_nat (CONFIG_MAX_FLASH_PAGE_SIZE cfg))
          else map (fun i => mem (CONFIG_APPLICATION_START cfg + Z.of_nat i))
                   (seq 0 (Z.to_nat (CONFIG_BLOCK_SIZE cfg)))
               ++ repeat 0 (Z.to_nat (CONFIG_MAX_FLASH_PAGE_SIZE cfg)
                            - Z.to_nat (CONFIG_BLOCK_SIZE cfg)))).
  { rewrite Hpb. change (bootup_code s0) with code.
    destruct (code =? REQUEST_SIG); [reflexivity|].
    unfold splice. cbn [firstn app Nat.add].
    rewrite length_application_first_block.
    unfold s0 at 2. cbn [page_buffer power_on].
    rewrite skipn_repeat. reflexivity. }
  assert (Hbuf1 : length (page_buffer s1)
                  = Z.to_nat (CONFIG_MAX_FLASH_PAGE_SIZE cfg)).
  { rewrite Hpb'. destruct (code =? REQUEST_SIG).
    - apply repeat_length.
    - rewrite length_app, length_map, length_seq, repeat_length. lia. }
  destruct (partial_page_then_eof cfg a payload s1) as (s2 & Hrun2 & Hc2);
    try lia.
  exists d, s1. split; [exact Hrun|]. split; [exact Hd|]. split; [exact Hpb'|].
  exists s2, (splice (page_buffer s1) (Z.to_nat (page_pos cfg a)) payload).
  split; [exact Hrun2|]. split; [|split; [|split]].
  - rewrite Hc2, Hc, Hl. reflexivity.
  - intros i Hi. apply nth_splice_inside; lia.
  - intros i Hi. apply nth_splice_outside; lia.
  - intros Hsig i Hi. rewrite nth_splice_outside by lia.
    rewrite Hpb'. apply Z.eqb_eq in Hsig. rewrite Hsig.
    apply nth_repeat.
Qed.

Lemma page_buffer_is_stale_at_entry_witness :
  exists s1 s2 page,
    canboot_main scenario_cfg 65 requested_power_on = Done (EnterBootloader, s1)
    /\ run scenario_cfg
           [WriteBlock (write_frame scenario_cfg 0x8000 (repeat 0xAA 64));
            Eof empty_frame] s1 = Done (tt, s2)
    /\ flash_commits (trace s2) = [(0x100, page)]
    /\ nth 64 page 0 = 0.
Proof.
  destruct (page_buffer_is_stale_at_entry scenario_cfg (fun _ => 0x21)
              REQUEST_SIG 0 65 0x8000 (repeat 0xAA 64))
    as (d & s1 & Hrun & Hd & _ & s2 & page & Hrun2 & Hc & _ & _ & Hz).
  - vm_compute. split; discriminate.
  - change (Z.to_nat (CONFIG_BLOCK_SIZE scenario_cfg)) with 64%nat. lia.
  - vm_compute. split; reflexivity.
  - vm_compute. discriminate.
  - vm_compute. discriminate.
  - reflexivity.
  - vm_compute. reflexivity.
  - exists s1, s2, page. rewrite (Hd eq_refl) in Hrun.
    split; [exact Hrun|]. split; [exact Hrun2|]. split; [exact Hc|].
    apply (Hz eq_refl). right. vm_compute. apply le_n.
Defined.

(** ** Write, commit, read back *)

Section RoundTrip.

Variable cfg : config.
Hypothesis block_size_pos : 0 < CONFIG_BLOCK_SIZE cfg.
Hypothesis page_size_u32 : 0 < flash_page_size cfg < 2 ^ 32.
Hypothesis block_divides_page : (CONFIG_BLOCK_SIZE cfg | flash_page_size cfg).

Variable a : Z.
Variable payload : list Z.
Hypothesis address_accepted : CONFIG_APPLICATION_START cfg <= a.
Hypothesis address_u32 : 0 <= a < 2 ^ 32.
Hypothesis address_aligned : (CONFIG_BLOCK_SIZE cfg | a).
Hypothesis payload_block_sized : Z.of_nat (length payload) = CONFIG_BLOCK_SIZE cfg.

Lemma offset_bounds :
  0 <= page_pos cfg a
  /\ page_pos cfg a + CONFIG_BLOCK_SIZE cfg <= flash_page_size cfg
  /\ (CONFIG_BLOCK_SIZE cfg | page_pos cfg a).
Proof.
  apply page_pos_aligned;
    [exact block_size_pos | apply page_size_u32
     | exact block_divides_page | exact address_aligned].
Qed.

(** Two distinct multiples of the block size are a block apart. *)
Lemma aligned_offsets_disjoint (p q : Z) :
  (CONFIG_BLOCK_SIZE cfg | p) -> (CONFIG_BLOCK_SIZE cfg | q) -> p <> q ->
  p + CONFIG_BLOCK_SIZE cfg <= q \/ q + CONFIG_BLOCK_SIZE cfg <= p.
Proof.
  intros [k Hk] [l Hl] Hne. subst p q.
  destruct (Z.lt_trichotomy k l) as [H | [H | H]].
  - left. nia.
  - subst. contradiction.
  - right. nia.
Qed.

Lemma staged_after_write (s : state) :
  flash_page_size cfg <= Z.of_nat (length (page_buffer s)) ->
  page_pos cfg a + CONFIG_BLOCK_SIZE cfg < flash_page_size cfg ->
  exists s1,
    command_write_block cfg (write_frame cfg a payload) s = Done (tt, s1)
    /\ block_staged cfg a payload s s1.
Proof.
  intros Hbuf Hshort. destruct offset_bounds as (Hpos & _ & _).
  eexists. split; [apply write_block_stages; assumption|].
  unfold block_staged, staged. simpl_state. repeat split.
  - rewrite length_splice; lia.
  - intros i Hi. apply nth_splice_inside; lia.
Qed.

Lemma staged_through_others (s0 : state) (others : list (Z * list Z)) :
  Forall (other_open_block cfg a) others ->
  forall s1, block_staged cfg a payload s0 s1 ->
  exists s2,
    run cfg (map (write_block_command cfg) others) s1 = Done (tt, s2)
    /\ block_staged cfg a payload s0 s2.
Proof.
  destruct offset_bounds as (Hpos & Hfit & Hmul).
  induction 1 as [|[a' p'] others (Ha' & Hal' & Hlen' & Hne & Hshort') _ IH];
    intros s1 (Hbuf & Hpend & Hlast & Hdata).
  - exists s1. split; [reflexivity|]. repeat split; assumption.
  - cbn [fst snd] in *.
    destruct (page_pos_aligned cfg a' block_size_pos ltac:(lia)
                block_divides_page Hal') as (Hpos' & _ & Hmul').
    cbn [map]. unfold write_block_command at 1. cbn [fst snd].
    erewrite run_cons
      by (cbn [handle]; apply write_block_stages; assumption).
    apply IH. unfold block_staged, staged. simpl_state. repeat split.
    + rewrite length_splice; lia.
    + exact Hlast.
    + intros i Hi.
      pose proof (aligned_offsets_disjoint _ _ Hmul' Hmul Hne) as Hdis.
      rewrite nth_splice_outside by lia.
      apply Hdata. exact Hi.
Qed.

(** Once a page whose buffer holds the block at the offset of [a] is
    committed at the base of [a]'s page, reading the block at [a] from
    flash gives the payload. *)
Lemma read_after_commit (s : state) :
  (forall i, (i < length payload)%nat ->
     nth (Z.to_nat (page_pos cfg a) + i) (page_buffer s) 0 = nth i payload 0) ->
  map (fun i => flash (committed cfg (a - page_pos cfg a) s) (a + Z.of_nat i))
      (seq 0 (Z.to_nat (CONFIG_BLOCK_SIZE cfg)))
  = payload.
Proof.
  intros Hdata. destruct offset_bounds as (Hpos & Hfit & _).
  rewrite <- payload_block_sized, Nat2Z.id.
  apply map_seq_eq. intros i Hi. unfold committed. simpl_state.
  replace ((a - page_pos cfg a <=? a + Z.of_nat i)
           && (a + Z.of_nat i <? a - page_pos cfg a + flash_page_size cfg))
    with true
    by (symmetry; apply andb_true_iff; split;
        [apply Z.leb_le | apply Z.ltb_lt]; lia).
  replace (Z.to_nat (a + Z.of_nat i - (a - page_pos cfg a)))
    with (Z.to_nat (page_pos cfg a) + i)%nat by lia.
  apply Hdata. exact Hi.
Qed.

End RoundTrip.

Lemma read_block_answers (cfg : config) (a : Z) (payload : list Z) (s : state) :
  (4 | CONFIG_BLOCK_SIZE cfg) ->
  Z.of_nat (length payload) = CONFIG_BLOCK_SIZE cfg ->
  map (fun i => flash s (a + Z.of_nat i))
      (seq 0 (Z.to_nat (CONFIG_BLOCK_SIZE cfg))) = payload ->
  exists s' t,
    run cfg [ReadBlock (read_frame a)] s = Done (tt, s')
    /\ trace s' = t ++ [EvAck CMD_REQ_BLOCK [a] payload].
Proof.
  intros [m Hm] Hlen H. cbn [run handle]. unfold bind at 1.
  rewrite read_block_run.
  cbn [read_frame data_1]. rewrite H.
  rewrite firstn_all2 by (rewrite Hm, Z.div_mul by lia; lia).
  eexists _, _. split; reflexivity.
Qed.

(** X16: for a block-aligned address [a] at or above the application
    start and a block-sized payload, with the block size a multiple of 4,
    write-block at [a], then calls along which the page containing [a] is
    committed (by this block, by the block that ends the page, or by an
    end-of-file whose flush address is the base of that page), then
    read-block at [a]: the read-block acknowledgement carries [a] and the
    payload. *)
Theorem write_then_read_returns_block
  (cfg : config) (s : state) (a : Z) (payload : list Z) (path : list command) :
  0 < CONFIG_BLOCK_SIZE cfg ->
  (4 | CONFIG_BLOCK_SIZE cfg) ->
  0 < flash_page_size cfg < 2 ^ 32 ->
  (CONFIG_BLOCK_SIZE cfg | flash_page_size cfg) ->
  flash_page_size cfg <= Z.of_nat (length (page_buffer s)) ->
  CONFIG_APPLICATION_START cfg <= a ->
  0 <= a < 2 ^ 32 ->
  (CONFIG_BLOCK_SIZE cfg | a) ->
  Z.of_nat (length payload) = CONFIG_BLOCK_SIZE cfg ->
  commits_page_of cfg s a path ->
  exists s' t,
    run cfg (WriteBlock (write_frame cfg a payload)
             :: path ++ [ReadBlock (read_frame a)]) s = Done (tt, s')
    /\ trace s' = t ++ [EvAck CMD_REQ_BLOCK [a] payload].
Proof.
  intros Hbs H4 Hps Hdiv Hbuf Ha Hu32 Hal Hlen Hpath.
  destruct (offset_bounds cfg Hbs Hps Hdiv a Hal) as (Hpos & Hfit & Hmul).
  destruct Hpath as [Hfill
                    | others a' p' Hshort Hothers Ha' Hu32' Hlen' Hfill' Hbase
                    | others d Hshort Hothers Hflush].
  - cbn [app].
    erewrite run_cons
      by (cbn [handle]; apply write_block_fills_page; assumption).
    apply read_block_answers; [exact H4 | exact Hlen |]. simpl_state.
    apply read_after_commit; try assumption.
    intros i Hi. unfold staged. simpl_state.
    apply nth_splice_inside; lia.
  - destruct (staged_after_write cfg Hbs Hps Hdiv a payload Ha Hal Hlen s Hbuf Hshort)
      as (s1 & Hrun1 & Hst1).
    destruct (staged_through_others cfg Hbs Hps Hdiv a payload Hal Hlen s others Hothers s1 Hst1)
      as (s2 & Hrun2 & Hbuf2 & Hpend2 & Hlast2 & Hdata2).
    rewrite (run_cons cfg _ _ s s1) by exact Hrun1.
    rewrite <- app_assoc. rewrite (run_app cfg _ _ s1 s2) by exact Hrun2.
    cbn [app].
    erewrite run_cons
      by (cbn [handle]; apply write_block_fills_page; assumption).
    apply read_block_answers; [exact H4 | exact Hlen |]. simpl_state. rewrite Hbase.
    apply read_after_commit; try assumption.
    intros i Hi. unfold staged. simpl_state.
    assert (Hpos' : 0 <= page_pos cfg a' < flash_page_size cfg)
      by (apply Z.mod_pos_bound; lia).
    assert (Hgap : page_pos cfg a + CONFIG_BLOCK_SIZE cfg <= page_pos cfg a').
    { destruct Hmul as [k Hk]. destruct Hdiv as [m Hm].
      assert (k + 1 < m) by nia.
      assert ((k + 2) * CONFIG_BLOCK_SIZE cfg <= m * CONFIG_BLOCK_SIZE cfg)
        by (apply Z.mul_le_mono_nonneg_r; lia).
      lia. }
    rewrite nth_splice_outside by lia.
    apply Hdata2. exact Hi.
  - destruct (staged_after_write cfg Hbs Hps Hdiv a payload Ha Hal Hlen s Hbuf Hshort)
      as (s1 & Hrun1 & Hst1).
    destruct (staged_through_others cfg Hbs Hps Hdiv a payload Hal Hlen s others Hothers s1 Hst1)
      as (s2 & Hrun2 & Hbuf2 & Hpend2 & Hlast2 & Hdata2).
    rewrite (run_cons cfg _ _ s s1) by exact Hrun1.
    rewrite <- app_assoc. rewrite (run_app cfg _ _ s1 s2) by exact Hrun2.
    cbn [app].
    erewrite run_cons
      by (cbn [handle]; rewrite eof_run by lia; cbv zeta;
          rewrite Hpend2, Hlast2, Hflush; reflexivity).
    apply read_block_answers; [exact H4 | exact Hlen |]. simpl_state.
    apply read_after_commit; try assumption.
Qed.

Lemma write_then_read_returns_block_witness :
  exists s' t,
    run scenario_cfg
        [WriteBlock (write_frame scenario_cfg 0x8040 (repeat 0xBB 64));
         WriteBlock (write_frame scenario_cfg 0x8000 (repeat 0xAA 64));
         WriteBlock (write_frame scenario_cfg 0x8080 (repeat 0xCC 64));
         WriteBlock (write_frame scenario_cfg 0x80C0 (repeat 0xDD 64));
         ReadBlock (read_frame 0x8040)]
        scenario_power_on = Done (tt, s')
    /\ trace s' = t ++ [EvAck CMD_REQ_BLOCK [0x8040] (repeat 0xBB 64)].
Proof.
  apply (write_then_read_returns_block scenario_cfg scenario_power_on
           0x8040 (repeat 0xBB 64)
           (map (write_block_command scenario_cfg)
                [(0x8000, repeat 0xAA 64); (0x8080, repeat 0xCC 64)]
            ++ [WriteBlock (write_frame scenario_cfg 0x80C0 (repeat 0xDD 64))])).
  - reflexivity.
  - exists 16. reflexivity.
  - split; reflexivity.
  - exists 4. reflexivity.
  - vm_compute. discriminate.
  - vm_compute. discriminate.
  - split; [vm_compute; discriminate | reflexivity].
  - exists 513. reflexivity.
  - reflexivity.
  - apply commit_by_later_block.
    + reflexivity.
    + repeat constructor; cbn [fst snd];
        first [ vm_compute; discriminate
              | reflexivity
              | exists 512; reflexivity
              | exists 514; reflexivity ].
    + vm_compute. discriminate.
    + split; [vm_compute; discriminate | reflexivity].
    + reflexivity.
    + reflexivity.
    + reflexivity.
Defined.

(** ** Page count of a contiguous session

    The end-of-file count is right as soon as one page has been committed
    before end-of-file; a session that ends before its first page is full
    is the case left out. *)

Section ContiguousSession.

Variable cfg : config.
Hypothesis block_size_pos : 0 < CONFIG_BLOCK_SIZE cfg.
Hypothesis page_size_u32 : 0 < flash_page_size cfg < 2 ^ 32.
Hypothesis block_divides_page : (CONFIG_BLOCK_SIZE cfg | flash_page_size cfg).
Hypothesis page_fits_buffer :
  flash_page_size cfg <= CONFIG_MAX_FLASH_PAGE_SIZE cfg.

Lemma tracks_write_block (s : state) (a : Z) (p : list Z) :
  tracks cfg s a ->
  (CONFIG_BLOCK_SIZE cfg | a) ->
  a < 2 ^ 32 ->
  Z.of_nat (length p) = CONFIG_BLOCK_SIZE cfg ->
  exists s',
    command_write_block cfg (write_frame cfg a p) s = Done (tt, s')
    /\ tracks cfg s' (a + CONFIG_BLOCK_SIZE cfg).
Proof.
  intros (q & r & k & Ha & Hr & Hk & Hk0 & Hpend & Hcount & Hlast & Hbuf)
         Hal Hu32 Hlen.
  assert (Hpos : page_pos cfg a = r).
  { unfold page_pos, flash_get_page_size. symmetry.
    apply (Z.mod_unique a _ q r); [left; exact Hr | exact Ha]. }
  destruct (page_pos_aligned cfg a block_size_pos ltac:(lia)
              block_divides_page Hal) as (_ & Hfit & _).
  rewrite Hpos in Hfit.
  assert (Hq : k <= q) by lia.
  assert (Hge : CONFIG_APPLICATION_START cfg <= a) by nia.
  assert (H0 : 0 <= a) by nia.
  destruct (Z.eq_dec (r + CONFIG_BLOCK_SIZE cfg) (flash_page_size cfg))
    as [Hfill | Hshort].
  - eexists. split.
    + apply write_block_fills_page; solve [assumption | lia].
    + exists (q + 1), 0, k. unfold committed, staged. simpl_state.
      rewrite flash_commits_app, length_app, Nat2Z.inj_add.
      rewrite flash_commits_app, length_app, Nat2Z.inj_add.
      cbn [flash_commits flat_map app length]. rewrite Hpos.
      repeat split; try lia.
      rewrite repeat_length. lia.
  - eexists. split.
    + apply write_block_stages; solve [assumption | lia].
    + exists q, (r + CONFIG_BLOCK_SIZE cfg), k. unfold staged. simpl_state.
      rewrite flash_commits_app, length_app, Nat2Z.inj_add.
      cbn [flash_commits flat_map app length]. rewrite Hpos.
      repeat split; try lia.
      rewrite length_splice; lia.
Qed.

Lemma tracks_contiguous (payloads : list (list Z)) :
  forall (s : state) (a : Z),
    tracks cfg s a ->
    (CONFIG_BLOCK_SIZE cfg | a) ->
    a + Z.of_nat (length payloads) * CONFIG_BLOCK_SIZE cfg <= 2 ^ 32 ->
    Forall (fun p => Z.of_nat (length p) = CONFIG_BLOCK_SIZE cfg) payloads ->
    exists s',
      run cfg (contiguous_blocks cfg a payloads) s = Done (tt, s')
      /\ tracks cfg s'
           (a + Z.of_nat (length payloads) * CONFIG_BLOCK_SIZE cfg).
Proof.
  induction payloads as [|p rest IH]; intros s a Ht Hal Hend Hlens.
  - exists s. split; [reflexivity|].
    cbn [length]. rewrite Z.mul_0_l, Z.add_0_r. exact Ht.
  - inversion Hlens as [|? ? Hp Hrest]; subst.
    cbn [length] in Hend. rewrite Nat2Z.inj_succ in Hend.
    destruct (tracks_write_block s a p Ht Hal ltac:(nia) Hp) as (s1 & Hrun & Ht1).
    cbn [contiguous_blocks].
    rewrite (run_cons cfg _ _ s s1) by exact Hrun.
    destruct (IH s1 (a + CONFIG_BLOCK_SIZE cfg) Ht1) as (s' & Hrun' & Ht');
      [ apply Z.divide_add_r; [exact Hal | apply Z.divide_refl]
      | nia | exact Hrest | ].
    exists s'. split; [exact Hrun'|].
    cbn [length]. rewrite Nat2Z.inj_succ.
    replace (a + Z.succ (Z.of_nat (length rest)) * CONFIG_BLOCK_SIZE cfg)
      with (a + CONFIG_BLOCK_SIZE cfg
            + Z.of_nat (length rest) * CONFIG_BLOCK_SIZE cfg) by ring.
    exact Ht'.
Qed.

(** End-of-file once at least one page has been committed: the count in
    the acknowledgement is the number of pages committed, the page count
    of the data rounded up. *)
Lemma tracks_eof (s : state) (a : Z) (d : frame) :
  tracks cfg s a ->
  1 < flash_page_size cfg ->
  CONFIG_APPLICATION_START cfg + flash_page_size cfg <= a ->
  a <= 2 ^ 32 ->
  exists s' n,
    command_eof cfg d s = Done (tt, s')
    /\ last (trace s') EvCommandError = EvAck CMD_RX_EOF [n] []
    /\ n = Z.of_nat (length (flash_commits (trace s')))
    /\ n = DIV_ROUND_UP (a - CONFIG_APPLICATION_START cfg) (flash_page_size cfg).
Proof.
  intros (q & r & k & Ha & Hr & Hk & Hk0 & Hpend & Hcount & Hlast & Hbuf)
         Hps2 Hpage Hu32.
  assert (Hkq : k < q) by nia.
  specialize (Hlast Hkq).
  set (ps := flash_page_size cfg) in *.
  assert (Hq0 : 0 <= ps * (q - 1 - k)) by nia.
  assert (Hpk : 0 <= ps * k) by nia.
  assert (Hqk : 2 * (q - k) <= ps * (q - k)) by nia.
  assert (Hdiv : forall x, ps * x / ps = x)
    by (intros x; rewrite Z.mul_comm; apply Z.div_mul; lia).
  rewrite eof_run by lia. cbv zeta. fold ps.
  eexists _, _. split; [reflexivity|].
  simpl_state. rewrite last_last. split; [reflexivity|].
  rewrite !flash_commits_app, !length_app, !Nat2Z.inj_add.
  unfold DIV_ROUND_UP. rewrite Hpend, Hk.
  destruct (Z.eqb_spec r 0) as [Hr0 | Hr0]; cbn [negb].
  - simpl_state. cbn [flash_commits flat_map app length].
    rewrite Hlast, Hcount.
    replace (ps * (q - 1) - ps * k) with (ps * (q - 1 - k)) by ring.
    rewrite (wrap32_small (ps * (q - 1 - k))) by lia.
    rewrite Hdiv, wrap32_small by lia.
    split; [lia|].
    apply (Z.div_unique _ ps (q - 1 - k + 1) (ps - 1)); [left; lia | nia].
  - unfold committed. simpl_state.
    rewrite !flash_commits_app, !length_app, !Nat2Z.inj_add.
    cbn [flash_commits flat_map app length].
    rewrite Hlast, Hcount.
    replace (ps * (q - 1) + ps) with (ps * q) by ring.
    rewrite (wrap32_small (ps * q)) by lia.
    replace (ps * q - ps * k) with (ps * (q - k)) by ring.
    rewrite (wrap32_small (ps * (q - k))) by lia.
    rewrite Hdiv, wrap32_small by lia.
    split; [lia|].
    apply (Z.div_unique _ ps (q - k + 1) (r - 1)); [left; lia | nia].
Qed.

(** A contiguous session from a page-aligned application start that
    carries at least one page of data: the end-of-file acknowledgement
    carries the number of pages committed to flash. *)
Lemma contiguous_session_page_count
  (s : state) (payloads : list (list Z)) (d : frame) (k : Z) :
  CONFIG_APPLICATION_START cfg = flash_page_size cfg * k ->
  0 <= k ->
  1 < flash_page_size cfg ->
  page_pending s = false ->
  flash_commits (trace s) = [] ->
  flash_page_size cfg <= Z.of_nat (length (page_buffer s)) ->
  Forall (fun p => Z.of_nat (length p) = CONFIG_BLOCK_SIZE cfg) payloads ->
  flash_page_size cfg <= Z.of_nat (length payloads) * CONFIG_BLOCK_SIZE cfg ->
  CONFIG_APPLICATION_START cfg
  + Z.of_nat (length payloads) * CONFIG_BLOCK_SIZE cfg <= 2 ^ 32 ->
  exists s' n,
    run cfg (contiguous_blocks cfg (CONFIG_APPLICATION_START cfg) payloads
             ++ [Eof d]) s = Done (tt, s')
    /\ last (trace s') EvCommandError = EvAck CMD_RX_EOF [n] []
    /\ n = Z.of_nat (length (flash_commits (trace s')))
    /\ n = DIV_ROUND_UP (Z.of_nat (length payloads) * CONFIG_BLOCK_SIZE cfg)
                        (flash_page_size cfg).
Proof.
  intros Hk Hk0 Hps2 Hpend Hnone Hbuf Hlens Hdata Hend.
  assert (Ht : tracks cfg s (CONFIG_APPLICATION_START cfg)).
  { exists k, 0, k. rewrite Hpend, Hnone. cbn [length Z.of_nat].
    repeat split; try lia. }
  assert (Hal : (CONFIG_BLOCK_SIZE cfg | CONFIG_APPLICATION_START cfg)).
  { rewrite Hk. apply Z.divide_mul_l. exact block_divides_page. }
  destruct (tracks_contiguous payloads s _ Ht Hal Hend Hlens) as (s1 & Hrun & Ht1).
  destruct (tracks_eof s1 _ d Ht1 Hps2 ltac:(lia) Hend) as (s' & n & Heof & Hack & Hn & Hceil).
  exists s', n.
  rewrite (run_app cfg _ _ s s1) by exact Hrun.
  cbn [run handle]. unfold bind at 1. rewrite Heof.
  split; [reflexivity|]. split; [exact Hack|]. split; [exact Hn|].
  rewrite Hceil. f_equal. lia.
Qed.

End ContiguousSession.

(** ** Further properties of the handlers *)

(** What an accepted or rejected write-block can leave behind, read back
    from a finished call. *)
Lemma write_block_done_inv (cfg : config) (data : frame) (s s' : state) :
  command_write_block cfg data s = Done (tt, s') ->
  s' = with_event EvCommandError (with_is_in_transfer true s)
  \/ exists buf',
       memcpy_at (page_buffer s) (page_pos cfg (data_1 data))
                 (data_2_bytes data) (CONFIG_BLOCK_SIZE cfg) = Done buf'
       /\ write_block_accepted cfg data = true
       /\ flash_page_size cfg <> 0
       /\ (s' = with_event (EvAck CMD_RX_BLOCK [data_1 data] []) (staged buf' s)
           \/ s' = with_event (EvAck CMD_RX_BLOCK [data_1 data] [])
                     (committed cfg
                        (wrap32 (data_1 data - page_pos cfg (data_1 data)))
                        (staged buf' s))).
Proof.
  intros H.
  destruct (write_block_accepted cfg data) eqn:Hacc.
  - right.
    destruct (Z.eq_dec (flash_page_size cfg) 0) as [Hz | Hnz].
    + exfalso. revert H.
      unfold write_block_accepted in Hacc.
      apply andb_true_iff in Hacc. destruct Hacc as [Hc Ha].
      apply negb_true_iff in Ha.
      unfold command_write_block, flash_get_page_size.
      unfold bind at 1. unfold modify at 1. rewrite Hc, Ha. cbn [negb].
      unfold bind at 1. unfold umod. rewrite Hz. cbn. discriminate.
    + destruct (memcpy_at (page_buffer s) (page_pos cfg (data_1 data))
                  (data_2_bytes data) (CONFIG_BLOCK_SIZE cfg)) as [buf'|f] eqn:Hcpy.
      * exists buf'. split; [reflexivity|]. split; [reflexivity|].
        split; [exact Hnz|].
        rewrite (write_block_accepted_run cfg data s buf' Hacc Hnz Hcpy) in H.
        injection H as <-.
        destruct (wrap32 (page_pos cfg (data_1 data) + CONFIG_BLOCK_SIZE cfg)
                  =? flash_page_size cfg); [right | left]; reflexivity.
      * exfalso. revert H.
        unfold write_block_accepted in Hacc.
        apply andb_true_iff in Hacc. destruct Hacc as [Hc Ha].
        apply negb_true_iff in Ha.
        unfold command_write_block, flash_get_page_size.
        unfold bind at 1. unfold modify at 1. rewrite Hc, Ha. cbn [negb].
        unfold bind at 1. unfold umod.
        apply Z.eqb_neq in Hnz. rewrite Hnz. unfold lift at 1.
        unfold bind at 1. unfold gets at 1.
        cbn [page_buffer with_is_in_transfer].
        unfold page_pos, flash_get_page_size in Hcpy. rewrite Hcpy.
        cbn. discriminate.
  - left. rewrite write_block_rejected in H by exact Hacc.
    injection H as <-. reflexivity.
Qed.

Lemma eof_done_inv (cfg : config) (data : frame) (s s' : state) :
  command_eof cfg data s = Done (tt, s') ->
  flash_page_size cfg <> 0
  /\ s' = (let s1 := with_is_in_transfer false s in
           let s2 := if page_pending s
                     then committed cfg
                            (wrap32 (last_page_address s + flash_page_size cfg)) s1
                     else s1 in
           with_event
             (EvAck CMD_RX_EOF
                [wrap32 (wrap32 (last_page_address s2
                                 - CONFIG_APPLICATION_START cfg)
                         / flash_page_size cfg + 1)] [])
             (with_event EvFlashComplete s2)).
Proof.
  intros H.
  destruct (Z.eq_dec (flash_page_size cfg) 0) as [Hz | Hnz].
  - exfalso. revert H. unfold command_eof, flash_get_page_size.
    unfold udiv. rewrite Hz. unfold_monad. unfold write_page. unfold_monad.
    simpl_state. destruct (page_pending s); cbn; discriminate.
  - split; [exact Hnz|]. rewrite eof_run in H by exact Hnz.
    cbv zeta in *. injection H as <-. reflexivity.
Qed.

Lemma run_cons_inv (cfg : config) (c : command) (cs : list command) (s s' : state) :
  run cfg (c :: cs) s = Done (tt, s') ->
  exists s1, handle cfg c s = Done (tt, s1) /\ run cfg cs s1 = Done (tt, s').
Proof.
  cbn [run]. unfold bind.
  destruct (handle cfg c s) as [[[] s1]|f]; [|discriminate].
  intros H. exists s1. split; [reflexivity | exact H].
Qed.

(** One handler call: the persistent register and the button level are
    not touched, and [complete] changes only by being set in
    [command_complete]. *)
Lemma handle_complete_flag (cfg : config) (c : command) (s s' : state) :
  handle cfg c s = Done (tt, s') ->
  bootup_code s' = bootup_code s
  /\ gpio_level s' = gpio_level s
  /\ complete s' = complete s || has_complete [c].
Proof.
  destruct c as [d | d | d | d | d]; cbn [handle has_complete existsb]; intros H.
  - unfold command_connect, command_respond_ack, modify in H.
    injection H as <-. simpl_state. rewrite orb_false_r. auto.
  - rewrite read_block_run in H. injection H as <-.
    simpl_state. rewrite orb_false_r. auto.
  - apply write_block_done_inv in H.
    destruct H as [-> | (buf' & _ & _ & _ & [-> | ->])];
      unfold staged, committed; simpl_state; rewrite orb_false_r; auto.
  - apply eof_done_inv in H. destruct H as [_ ->]. cbv zeta.
    destruct (page_pending s); unfold committed; simpl_state;
      rewrite orb_false_r; auto.
  - unfold command_complete, command_respond_ack, bind, modify in H.
    injection H as <-. simpl_state. rewrite orb_true_r. auto.
Qed.

Lemma run_complete_flag (cfg : config) (cs : list command) (s s' : state) :
  run cfg cs s = Done (tt, s') ->
  complete s' = complete s || has_complete cs
  /\ bootup_code s' = bootup_code s.
Proof.
  revert s. induction cs as [|c cs IH]; intros s H.
  - cbn in H. unfold ret in H. injection H as <-.
    cbn. rewrite orb_false_r. auto.
  - apply run_cons_inv in H. destruct H as (s1 & Hc & Hrest).
    apply handle_complete_flag in Hc. destruct Hc as (Hb & _ & Hc).
    apply IH in Hrest. destruct Hrest as (Hc' & Hb').
    split; [|congruence].
    rewrite Hc', Hc. cbn [has_complete existsb].
    rewrite orb_false_r, orb_assoc. reflexivity.
Qed.

(** X1: over any session that runs through, [complete] ends up set exactly
    when it was set before or the session contains the complete command:
    no handler clears it and only [command_complete] sets it; the
    persistent boot-up register is left alone by every handler. *)
Theorem session_completion_flag
  (cfg : config) (cs : list command) (s s' : state) :
  run cfg cs s = Done (tt, s') ->
  complete s' = complete s || has_complete cs
  /\ bootup_code s' = bootup_code s.
Proof. apply run_complete_flag. Qed.

Lemma session_completion_flag_witness :
  exists s',
    run scenario_cfg
        [Connect empty_frame; Eof empty_frame; Complete empty_frame;
         ReadBlock (read_frame 0x8000)]
        scenario_power_on = Done (tt, s')
    /\ complete s' = true
    /\ bootup_code s' = 0.
Proof.
  assert (Hex : exists s',
             run scenario_cfg
                 [Connect empty_frame; Eof empty_frame; Complete empty_frame;
                  ReadBlock (read_frame 0x8000)]
                 scenario_power_on = Done (tt, s'))
    by (eexists; reflexivity).
  destruct Hex as [s' Hrun].
  destruct (session_completion_flag _ _ _ _ Hrun) as [Hc Hb].
  exists s'. split; [exact Hrun|]. split; [exact Hc | exact Hb].
Defined.

Lemma divide_wrap32 (p x : Z) :
  (p | 2 ^ 32) -> (p | x) -> (p | wrap32 x).
Proof.
  intros H32 Hx. unfold wrap32.
  rewrite Z.mod_eq by lia.
  apply Z.divide_sub_r; [exact Hx|].
  apply Z.divide_mul_l. exact H32.
Qed.

Lemma divide_page_base (p a : Z) : p <> 0 -> (p | a - a mod p).
Proof.
  intros Hp. exists (a / p).
  pose proof (Z.div_mod a p Hp). lia.
Qed.

(** One handler call keeps [last_page_address] and every commit issued on
    page boundaries. *)
Lemma handle_commits_aligned (cfg : config) (c : command) (s s' : state) :
  (flash_page_size cfg | 2 ^ 32) ->
  (flash_page_size cfg | last_page_address s) ->
  Forall (fun w => (flash_page_size cfg | fst w)) (flash_commits (trace s)) ->
  handle cfg c s = Done (tt, s') ->
  (flash_page_size cfg | last_page_address s')
  /\ Forall (fun w => (flash_page_size cfg | fst w)) (flash_commits (trace s')).
Proof.
  intros H32 Hlast Hall.
  assert (Hsnoc : forall a d,
             (flash_page_size cfg | a) ->
             Forall (fun w => (flash_page_size cfg | fst w))
                    (flash_commits (trace s) ++ [(a, d)])).
  { intros a d Ha. apply Forall_app. split; [exact Hall|].
    constructor; [exact Ha | constructor]. }
  destruct c as [d | d | d | d | d]; cbn [handle]; intros H.
  - unfold command_connect, command_respond_ack, modify in H.
    injection H as <-. simpl_state.
    rewrite flash_commits_app, app_nil_r. auto.
  - rewrite read_block_run in H. injection H as <-. simpl_state.
    rewrite flash_commits_app, app_nil_r. auto.
  - apply write_block_done_inv in H.
    destruct H as [-> | (buf' & _ & _ & Hnz & [-> | ->])];
      unfold staged, committed; simpl_state;
      rewrite ?flash_commits_app; cbn [flash_commits flat_map app];
      rewrite ?app_nil_r; auto.
    assert (Hbase : (flash_page_size cfg
                     | wrap32 (data_1 d - page_pos cfg (data_1 d)))).
    { apply divide_wrap32; [exact H32|].
      apply divide_page_base. exact Hnz. }
    split; [exact Hbase | apply Hsnoc; exact Hbase].
  - apply eof_done_inv in H. destruct H as [Hnz ->]. cbv zeta.
    destruct (page_pending s); unfold committed; simpl_state;
      rewrite ?flash_commits_app; cbn [flash_commits flat_map app];
      rewrite ?app_nil_r; auto.
    assert (Hnext : (flash_page_size cfg
                     | wrap32 (last_page_address s + flash_page_size cfg))).
    { apply divide_wrap32; [exact H32|].
      apply Z.divide_add_r; [exact Hlast | apply Z.divide_refl]. }
    split; [exact Hnext | apply Hsnoc; exact Hnext].
  - unfold command_complete, command_respond_ack, bind, modify in H.
    injection H as <-. simpl_state.
    rewrite flash_commits_app, app_nil_r. auto.
Qed.

(** X2: every page handed to [flash_write_page] during a session goes to a
    multiple of the page size, whatever the addresses of the blocks
    (aligned or not) and whatever the order of the commands, as long as
    the page size divides 2^32; [last_page_address] stays such a multiple
    as well.  The session starts with [last_page_address] a multiple of
    the page size, as its initial 0 is. *)
Theorem session_commits_on_page_boundaries
  (cfg : config) (cs : list command) (s s' : state) :
  (flash_page_size cfg | 2 ^ 32) ->
  (flash_page_size cfg | last_page_address s) ->
  flash_commits (trace s) = [] ->
  run cfg cs s = Done (tt, s') ->
  (flash_page_size cfg | last_page_address s')
  /\ Forall (fun w => (flash_page_size cfg | fst w)) (flash_commits (trace s')).
Proof.
  intros H32 Hlast Hnone.
  assert (Hall : Forall (fun w => (flash_page_size cfg | fst w))
                        (flash_commits (trace s)))
    by (rewrite Hnone; constructor).
  clear Hnone. revert s Hlast Hall.
  induction cs as [|c cs IH]; intros s Hlast Hall H.
  - cbn in H. unfold ret in H. injection H as <-. auto.
  - apply run_cons_inv in H. destruct H as (s1 & Hc & Hrest).
    destruct (handle_commits_aligned cfg c s s1 H32 Hlast Hall Hc) as [Hl1 Ha1].
    exact (IH s1 Hl1 Ha1 Hrest).
Qed.

Lemma session_commits_on_page_boundaries_witness :
  exists s',
    run scenario_cfg
        [WriteBlock (write_frame scenario_cfg 0x8041 (repeat 0xBB 64));
         Eof empty_frame]
        scenario_power_on = Done (tt, s')
    /\ Forall (fun w => (256 | fst w)) (flash_commits (trace s')).
Proof.
  destruct (partial_page_then_eof scenario_cfg 0x8041 (repeat 0xBB 64)
              scenario_power_on) as (s' & Hrun & _).
  - vm_compute. discriminate.
  - split; reflexivity.
  - reflexivity.
  - vm_compute. discriminate.
  - reflexivity.
  - assert (H32 : (flash_page_size scenario_cfg | 2 ^ 32))
      by (exists 16777216; reflexivity).
    assert (Hlast : (flash_page_size scenario_cfg
                     | last_page_address scenario_power_on))
      by (exists 0; reflexivity).
    assert (Hnone : flash_commits (trace scenario_power_on) = [])
      by reflexivity.
    exists s'. split; [exact Hrun|].
    exact (proj2 (session_commits_on_page_boundaries
                    scenario_cfg _ scenario_power_on s' H32 Hlast Hnone Hrun)).
Defined.

(** X3: end-of-file commits exactly one page when a page is pending and
    none otherwise, and leaves nothing pending; a second end-of-file right
    after it therefore commits nothing more, leaves flash and
    [last_page_address] as they are, and reports the same page count. *)
Theorem eof_twice (cfg : config) (d d' : frame) (s : state) :
  flash_page_size cfg <> 0 ->
  exists s1 s2 n,
    command_eof cfg d s = Done (tt, s1)
    /\ page_pending s1 = false
    /\ length (flash_commits (trace s1))
       = (length (flash_commits (trace s))
          + if page_pending s then 1 else 0)%nat
    /\ last (trace s1) EvCommandError = EvAck CMD_RX_EOF [n] []
    /\ command_eof cfg d' s1 = Done (tt, s2)
    /\ trace s2 = trace s1 ++ [EvFlashComplete; EvAck CMD_RX_EOF [n] []]
    /\ flash s2 = flash s1
    /\ last_page_address s2 = last_page_address s1
    /\ page_buffer s2 = page_buffer s1.
Proof.
  intros Hnz.
  assert (Hsecond : forall s1,
            page_pending s1 = false ->
            command_eof cfg d' s1
            = Done (tt,
                    with_event
                      (EvAck CMD_RX_EOF
                         [wrap32 (wrap32 (last_page_address s1
                                          - CONFIG_APPLICATION_START cfg)
                                  / flash_page_size cfg + 1)] [])
                      (with_event EvFlashComplete
                         (with_is_in_transfer false s1)))).
  { intros s1 Hp. rewrite eof_run by exact Hnz. cbv zeta.
    rewrite Hp. reflexivity. }
  rewrite eof_run by exact Hnz. cbv zeta.
  destruct (page_pending s) eqn:Hp.
  - eexists _, _, _. split; [reflexivity|].
    split; [reflexivity|].
    split.
    { unfold committed. simpl_state.
      rewrite !flash_commits_app, !length_app. cbn. lia. }
    split; [simpl_state; apply last_last|].
    split; [apply Hsecond; reflexivity|].
    simpl_state. rewrite <- !app_assoc. repeat split.
  - eexists _, _, _. split; [reflexivity|].
    split; [simpl_state; exact Hp|].
    split.
    { simpl_state.
      rewrite !flash_commits_app, !length_app. cbn. lia. }
    split; [simpl_state; apply last_last|].
    split; [apply Hsecond; simpl_state; exact Hp|].
    simpl_state. rewrite <- !app_assoc. repeat split.
Qed.

Lemma eof_twice_witness :
  exists s1 s2 n,
    command_eof scenario_cfg empty_frame scenario_power_on = Done (tt, s1)
    /\ last (trace s1) EvCommandError = EvAck CMD_RX_EOF [n] []
    /\ command_eof scenario_cfg empty_frame s1 = Done (tt, s2)
    /\ trace s2 = trace s1 ++ [EvFlashComplete; EvAck CMD_RX_EOF [n] []].
Proof.
  destruct (eof_twice scenario_cfg empty_frame empty_frame scenario_power_on)
    as (s1 & s2 & n & H1 & _ & _ & Hn & H2 & Ht & _).
  - vm_compute. discriminate.
  - exists s1, s2, n. auto.
Defined.

(** X4: read-block reads flash, not the page buffer.  A block that has
    been accepted but whose page is still open is not what a read-block at
    the same address returns: the acknowledgement carries the bytes flash
    held before the write (the [CONFIG_BLOCK_SIZE / 4] words of them that
    fit before the trailer word of [out]).  The read itself changes
    neither flash nor the write state. *)
Theorem read_block_bypasses_page_buffer
  (cfg : config) (a : Z) (payload : list Z) (s : state) :
  CONFIG_APPLICATION_START cfg <= a ->
  0 < flash_page_size cfg < 2 ^ 32 ->
  Z.of_nat (length payload) = CONFIG_BLOCK_SIZE cfg ->
  flash_page_size cfg <= Z.of_nat (length (page_buffer s)) ->
  page_pos cfg a + CONFIG_BLOCK_SIZE cfg < flash_page_size cfg ->
  exists s1 s2,
    command_write_block cfg (write_frame cfg a payload) s = Done (tt, s1)
    /\ command_read_block cfg (read_frame a) s1 = Done (tt, s2)
    /\ trace s2 = trace s1
                  ++ [EvAck CMD_REQ_BLOCK [a]
                        (firstn (Z.to_nat (4 * (CONFIG_BLOCK_SIZE cfg / 4)))
                           (map (fun i => flash s (a + Z.of_nat i))
                                (seq 0 (Z.to_nat (CONFIG_BLOCK_SIZE cfg)))))]
    /\ flash s2 = flash s
    /\ page_buffer s2 = page_buffer s1
    /\ page_pending s2 = true
    /\ last_page_address s2 = last_page_address s.
Proof.
  intros Ha Hps Hlen Hbuf Hshort.
  eexists _, _.
  split; [apply write_block_stages; assumption|].
  split; [apply read_block_run|].
  unfold staged. simpl_state. cbn [read_frame data_1]. repeat split.
Qed.

Lemma read_block_bypasses_page_buffer_witness :
  exists s1 s2,
    command_write_block scenario_cfg
      (write_frame scenario_cfg 0x8000 (repeat 0xAA 64)) scenario_power_on
    = Done (tt, s1)
    /\ command_read_block scenario_cfg (read_frame 0x8000) s1 = Done (tt, s2)
    /\ trace s2 = trace s1 ++ [EvAck CMD_REQ_BLOCK [0x8000] (repeat 0xFF 64)].
Proof.
  destruct (read_block_bypasses_page_buffer scenario_cfg 0x8000
              (repeat 0xAA 64) scenario_power_on)
    as (s1 & s2 & H1 & H2 & Ht & _).
  - vm_compute. discriminate.
  - split; reflexivity.
  - reflexivity.
  - vm_compute. discriminate.
  - reflexivity.
  - exists s1, s2. split; [exact H1|]. split; [exact H2|]. exact Ht.
Defined.

(** X5: connect answers the same in every state and for every frame and
    changes nothing but the record of the response: the words are the
    protocol version, the application start and the block size, and the
    bytes are the MCU name padded with zeros to a whole number of 32-bit
    words. *)
Theorem connect_response (cfg : config) (d : frame) (s : state) :
  exists bytes,
    command_connect cfg d s
    = Done (tt, with_event
                  (EvAck CMD_CONNECT
                     [PROTO_VERSION cfg; CONFIG_APPLICATION_START cfg;
                      CONFIG_BLOCK_SIZE cfg] bytes) s)
    /\ Z.of_nat (length bytes)
       = 4 * DIV_ROUND_UP (Z.of_nat (length (string_bytes (CONFIG_MCU cfg)))) 4
    /\ firstn (length (string_bytes (CONFIG_MCU cfg))) bytes
       = string_bytes (CONFIG_MCU cfg)
    /\ forall i, (length (string_bytes (CONFIG_MCU cfg)) <= i)%nat ->
                 nth i bytes 0 = 0.
Proof.
  set (mcu := string_bytes (CONFIG_MCU cfg)).
  set (w := DIV_ROUND_UP (Z.of_nat (length mcu)) 4).
  exists (mcu ++ repeat 0 (Z.to_nat (w * 4) - length mcu)).
  split; [reflexivity|].
  assert (Hw : Z.of_nat (length mcu) <= w * 4).
  { unfold w, DIV_ROUND_UP.
    pose proof (Z.div_mod (Z.of_nat (length mcu) + 4 - 1) 4 ltac:(lia)).
    pose proof (Z.mod_pos_bound (Z.of_nat (length mcu) + 4 - 1) 4 ltac:(lia)).
    lia. }
  split; [|split].
  - rewrite length_app, repeat_length. lia.
  - rewrite firstn_app, Nat.sub_diag, firstn_O, app_nil_r. apply firstn_all.
  - intros i Hi. rewrite app_nth2 by exact Hi. apply nth_repeat.
Qed.

(** X6: an accepted write-block finishes exactly when its copy stays
    inside the page buffer, that is when offset + block size is at most
    the size of the buffer; otherwise the copy runs past the end of
    [page_buffer].  (The payload holds a block and the page size is not
    zero.) *)
Theorem write_block_in_bounds_iff (cfg : config) (data : frame) (s : state) :
  write_block_accepted cfg data = true ->
  0 < flash_page_size cfg ->
  0 <= CONFIG_BLOCK_SIZE cfg <= Z.of_nat (length (data_2_bytes data)) ->
  ((exists s', command_write_block cfg data s = Done (tt, s'))
   <-> page_pos cfg (data_1 data) + CONFIG_BLOCK_SIZE cfg
       <= Z.of_nat (length (page_buffer s)))
  /\ (Z.of_nat (length (page_buffer s))
      < page_pos cfg (data_1 data) + CONFIG_BLOCK_SIZE cfg ->
      command_write_block cfg data s = Fault BufferOverrun).
Proof.
  intros Hacc Hps [Hbs Hlen].
  assert (Hpos : 0 <= page_pos cfg (data_1 data))
    by (apply Z.mod_pos_bound; exact Hps).
  assert (Hover : Z.of_nat (length (page_buffer s))
                  < page_pos cfg (data_1 data) + CONFIG_BLOCK_SIZE cfg ->
                  command_write_block cfg data s = Fault BufferOverrun).
  { intros Hout.
    unfold write_block_accepted in Hacc.
    apply andb_true_iff in Hacc. destruct Hacc as [Hc Ha].
    apply negb_true_iff in Ha.
    unfold command_write_block, flash_get_page_size.
    unfold bind at 1. unfold modify at 1. rewrite Hc, Ha. cbn [negb].
    unfold bind at 1. unfold umod.
    replace (flash_page_size cfg =? 0) with false
      by (symmetry; apply Z.eqb_neq; lia).
    unfold lift at 1. unfold bind at 1. unfold gets at 1.
    cbn [page_buffer with_is_in_transfer].
    unfold memcpy_at.
    unfold page_pos, flash_get_page_size in Hout.
    apply Z.leb_gt in Hout. rewrite Hout.
    rewrite andb_false_r. reflexivity. }
  split; [|exact Hover].
  split.
  - intros [s' H].
    destruct (Z.le_gt_cases
                (page_pos cfg (data_1 data) + CONFIG_BLOCK_SIZE cfg)
                (Z.of_nat (length (page_buffer s)))) as [Hle | Hgt];
      [exact Hle|].
    rewrite (Hover Hgt) in H. discriminate.
  - intros Hfit.
    rewrite (write_block_accepted_run cfg data s _ Hacc ltac:(lia)
               (memcpy_at_done _ _ _ _ Hpos Hbs Hfit Hlen)).
    eexists. reflexivity.
Qed.

Lemma write_block_in_bounds_iff_witness :
  command_write_block scenario_cfg unaligned_frame scenario_power_on
  = Fault BufferOverrun.
Proof.
  apply (write_block_in_bounds_iff scenario_cfg unaligned_frame scenario_power_on).
  - reflexivity.
  - reflexivity.
  - vm_compute. split; discriminate.
  - reflexivity.
Defined.

(** ** Further properties of the boot decision *)

Lemma skipn_nth_cons (l : list Z) (i : nat) :
  (i < length l)%nat -> skipn i l = nth i l 0 :: skipn (S i) l.
Proof.
  revert i. induction l as [|x l IH]; intros i Hi; [cbn in Hi; lia|].
  destruct i as [|i]; [reflexivity|].
  cbn [skipn nth]. apply IH. cbn in Hi. lia.
Qed.

(** The scan returns 0 when all the bytes left to scan are 0xFF and 1
    otherwise, as long as the block size fits the [uint8_t] counter. *)
Lemma check_loop_result (cfg : config) (buf : list Z) (n : nat) :
  forall (i fuel : nat),
    Z.of_nat i + Z.of_nat n = CONFIG_BLOCK_SIZE cfg ->
    CONFIG_BLOCK_SIZE cfg <= 255 ->
    (i + n <= length buf)%nat ->
    (n < fuel)%nat ->
    check_application_code_loop cfg fuel (Z.of_nat i) buf
    = Done (if all_fill (firstn n (skipn i buf)) then 0 else 1).
Proof.
  induction n as [|n IH]; intros i fuel Hsum Hbs Hlen Hfuel;
    (destruct fuel as [|fuel]; [lia|]); cbn [check_application_code_loop].
  - replace (Z.of_nat i <? CONFIG_BLOCK_SIZE cfg) with false
      by (symmetry; apply Z.ltb_ge; lia).
    reflexivity.
  - replace (Z.of_nat i <? CONFIG_BLOCK_SIZE cfg) with true
      by (symmetry; apply Z.ltb_lt; lia).
    rewrite Nat2Z.id.
    rewrite (skipn_nth_cons buf i) by lia.
    cbn [firstn all_fill forallb].
    destruct (nth i buf 0 =? 255); cbn [negb andb]; [|reflexivity].
    replace (wrap8 (Z.of_nat i + 1)) with (Z.of_nat (S i))
      by (unfold wrap8; rewrite Z.mod_small; lia).
    apply IH; lia.
Qed.

Lemma check_application_code_result (cfg : config) (fuel : nat) (s : state) :
  0 <= CONFIG_BLOCK_SIZE cfg <= 255 ->
  CONFIG_BLOCK_SIZE cfg <= Z.of_nat (length (page_buffer s)) ->
  (Z.to_nat (CONFIG_BLOCK_SIZE cfg) < fuel)%nat ->
  check_application_code cfg fuel s
  = Done (if all_fill (application_first_block cfg s) then 0 else 1,
          with_page_buffer
            (splice (page_buffer s) 0 (application_first_block cfg s)) s).
Proof.
  intros Hbs Hbuf Hfuel.
  rewrite check_application_code_run by lia. cbv zeta.
  pose proof (length_application_first_block cfg s) as Hlen.
  rewrite (check_loop_result cfg _ (Z.to_nat (CONFIG_BLOCK_SIZE cfg)) 0 fuel);
    try lia.
  - cbn [skipn].
    rewrite (firstn_splice_upto (page_buffer s) 0
               (application_first_block cfg s)) by lia.
    reflexivity.
  - rewrite length_splice; lia.
Qed.

(** What [canboot_main] does, in full, when the block size fits the scan's
    counter and the page buffer. *)
Lemma canboot_main_result (cfg : config) (fuel : nat) (s : state) :
  0 <= CONFIG_BLOCK_SIZE cfg <= 255 ->
  CONFIG_BLOCK_SIZE cfg <= Z.of_nat (length (page_buffer s)) ->
  (Z.to_nat (CONFIG_BLOCK_SIZE cfg) < fuel)%nat ->
  exists s',
    canboot_main cfg fuel s
    = Done (if (bootup_code s =? REQUEST_SIG)
               || all_fill (application_first_block cfg s)
               || (CONFIG_ENABLE_BUTTON cfg
                   && (gpio_level s =? button_high cfg))
            then EnterBootloader else JumpToApplication, s')
    /\ flash s' = flash s
    /\ flash_commits (trace s') = flash_commits (trace s)
    /\ bootup_code s'
       = (if (bootup_code s =? REQUEST_SIG)
             || all_fill (application_first_block cfg s)
             || (CONFIG_ENABLE_BUTTON cfg
                 && (gpio_level s =? button_high cfg))
             || CONFIG_ENABLE_DOUBLE_RESET cfg
          then 0 else bootup_code s).
Proof.
  intros Hbs Hbuf Hfuel.
  unfold canboot_main.
  unfold bind at 1. unfold get_bootup_code, gets at 1.
  destruct (bootup_code s =? REQUEST_SIG) eqn:Hsig; cbn [orb].
  - eexists. split; [reflexivity|]. simpl_state. repeat split.
  - unfold bind at 1. unfold bind at 1.
    rewrite check_application_code_result by assumption.
    destruct (all_fill (application_first_block cfg s)); cbn [orb Z.eqb].
    + eexists. split; [reflexivity|]. simpl_state. repeat split.
    + unfold check_button_pressed, check_double_reset.
      destruct (CONFIG_ENABLE_BUTTON cfg); cbn [negb andb orb].
      * unfold_monad. simpl_state.
        destruct (gpio_level s =? button_high cfg); cbn [orb];
          destruct (CONFIG_ENABLE_DOUBLE_RESET cfg); cbn [negb];
          (eexists; split; [reflexivity|]); simpl_state;
          rewrite ?flash_commits_app, ?app_nil_r; repeat split.
      * unfold_monad.
        destruct (CONFIG_ENABLE_DOUBLE_RESET cfg); cbn [negb];
          (eexists; split; [reflexivity|]); simpl_state;
          rewrite ?flash_commits_app, ?app_nil_r; repeat split.
Qed.

(** X7: the boot decision in full.  [canboot_main] reaches
    [enter_bootloader] exactly when the boot-up register holds the request
    constant, or the application's first block reads 0xFF throughout, or
    the button is enabled and read at its active level; otherwise it
    reaches [jump_to_application].  (The block size fits the scan's
    [uint8_t] counter and the page buffer.) *)
Theorem boot_decision_table (cfg : config) (fuel : nat) (s : state) :
  0 <= CONFIG_BLOCK_SIZE cfg <= 255 ->
  CONFIG_BLOCK_SIZE cfg <= Z.of_nat (length (page_buffer s)) ->
  (Z.to_nat (CONFIG_BLOCK_SIZE cfg) < fuel)%nat ->
  exists s',
    canboot_main cfg fuel s
    = Done (if (bootup_code s =? REQUEST_SIG)
               || all_fill (application_first_block cfg s)
               || (CONFIG_ENABLE_BUTTON cfg
                   && (gpio_level s =? button_high cfg))
            then EnterBootloader else JumpToApplication, s').
Proof.
  intros Hbs Hbuf Hfuel.
  destruct (canboot_main_result cfg fuel s Hbs Hbuf Hfuel) as (s' & H & _).
  exists s'. exact H.
Qed.

Lemma boot_decision_table_witness :
  exists s',
    canboot_main scenario_cfg 65 installed_power_on
    = Done (JumpToApplication, s').
Proof.
  destruct (boot_decision_table scenario_cfg 65 installed_power_on)
    as (s' & H).
  - vm_compute. split; discriminate.
  - vm_compute. discriminate.
  - change (Z.to_nat (CONFIG_BLOCK_SIZE scenario_cfg)) with 64%nat. lia.
  - exists s'. exact H.
Defined.

(** X8: whichever way [canboot_main] leaves, the boot-up register no
    longer holds the request constant, no page has been written to flash
    and program memory is as it was: the boot decision consumes the
    request and only reads flash. *)
Theorem boot_consumes_request (cfg : config) (fuel : nat) (s : state) :
  0 <= CONFIG_BLOCK_SIZE cfg <= 255 ->
  CONFIG_BLOCK_SIZE cfg <= Z.of_nat (length (page_buffer s)) ->
  (Z.to_nat (CONFIG_BLOCK_SIZE cfg) < fuel)%nat ->
  exists d s',
    canboot_main cfg fuel s = Done (d, s')
    /\ bootup_code s' <> REQUEST_SIG
    /\ flash s' = flash s
    /\ flash_commits (trace s') = flash_commits (trace s).
Proof.
  intros Hbs Hbuf Hfuel.
  destruct (canboot_main_result cfg fuel s Hbs Hbuf Hfuel)
    as (s' & H & Hf & Hc & Hcode).
  eexists _, s'. split; [exact H|]. split; [|split; assumption].
  rewrite Hcode.
  destruct (bootup_code s =? REQUEST_SIG) eqn:Hsig; cbn [orb];
    [discriminate|].
  destruct (all_fill (application_first_block cfg s)
            || CONFIG_ENABLE_BUTTON cfg && (gpio_level s =? button_high cfg)
            || CONFIG_ENABLE_DOUBLE_RESET cfg);
    [discriminate|].
  apply Z.eqb_neq. exact Hsig.
Qed.

Lemma boot_consumes_request_witness :
  exists d s',
    canboot_main scenario_cfg 65 requested_power_on = Done (d, s')
    /\ bootup_code s' <> REQUEST_SIG.
Proof.
  destruct (boot_consumes_request scenario_cfg 65 requested_power_on)
    as (d & s' & H & Hc & _).
  - vm_compute. split; discriminate.
  - vm_compute. discriminate.
  - change (Z.to_nat (CONFIG_BLOCK_SIZE scenario_cfg)) with 64%nat. lia.
  - exists d, s'. split; assumption.
Defined.

(** X9: double reset.  With the feature enabled, [check_double_reset]
    is its interrupted part followed by the clearing of the register; a
    reset that arrives during the delay finds the request constant in the
    register, so the next [canboot_main] enters update mode and clears it,
    whatever the application and the button; without a reset the register
    ends at 0. *)
Theorem double_reset_enters_update_mode
  (cfg : config) (fuel : nat) (level : Z) (s : state) :
  CONFIG_ENABLE_DOUBLE_RESET cfg = true ->
  exists s1 s2 s3,
    check_double_reset_interrupted cfg s = Done (tt, s1)
    /\ canboot_main cfg fuel (reset cfg level s1) = Done (EnterBootloader, s2)
    /\ bootup_code s2 = 0
    /\ check_double_reset cfg s = Done (tt, s3)
    /\ s3 = with_bootup_code 0 s1
    /\ bootup_code s3 = 0.
Proof.
  intros Hdr.
  unfold check_double_reset_interrupted, check_double_reset.
  rewrite Hdr. cbn [negb]. unfold_monad.
  eexists _, _, _. split; [reflexivity|].
  split; [apply canboot_main_requested; reflexivity|].
  repeat split.
Qed.

Lemma double_reset_enters_update_mode_witness :
  exists s1 s2,
    check_double_reset_interrupted double_reset_cfg installed_power_on
    = Done (tt, s1)
    /\ canboot_main double_reset_cfg 65 (reset double_reset_cfg 0 s1)
       = Done (EnterBootloader, s2)
    /\ bootup_code s2 = 0.
Proof.
  destruct (double_reset_enters_update_mode double_reset_cfg 65 0
              installed_power_on)
    as (s1 & s2 & s3 & H1 & H2 & H3 & _).
  - reflexivity.
  - exists s1, s2. split; [exact H1|]. split; [exact H2 | exact H3].
Defined.

(** With a block of 256 bytes or more whose first 256 bytes are 0xFF, the
    [uint8_t] counter wraps before it reaches the block size: the scan
    never ends. *)
Lemma check_loop_never_ends (cfg : config) (buf : list Z) (fuel : nat) :
  forall i,
    0 <= i < 256 ->
    256 <= CONFIG_BLOCK_SIZE cfg ->
    (forall j, 0 <= j < 256 -> nth (Z.to_nat j) buf 0 = 0xFF) ->
    check_application_code_loop cfg fuel i buf = Fault OutOfFuel.
Proof.
  induction fuel as [|fuel IH]; intros i Hi Hbs Hfill; [reflexivity|].
  cbn [check_application_code_loop].
  replace (i <? CONFIG_BLOCK_SIZE cfg) with true
    by (symmetry; apply Z.ltb_lt; lia).
  rewrite Hfill by exact Hi. cbn [Z.eqb Pos.eqb negb].
  apply IH; try assumption.
  unfold wrap8. apply Z.mod_pos_bound. lia.
Qed.

(** X10: the erased-device check relies on the block size fitting its
    [uint8_t] counter.  With a block size of 256 or more, no boot request
    and an application area whose first 256 bytes read 0xFF,
    [canboot_main] never gets past [check_application_code]: whatever the
    fuel, the scan has not finished. *)
Theorem blank_scan_never_ends_for_large_blocks
  (cfg : config) (s : state) :
  256 <= CONFIG_BLOCK_SIZE cfg ->
  CONFIG_BLOCK_SIZE cfg <= Z.of_nat (length (page_buffer s)) ->
  bootup_code s <> REQUEST_SIG ->
  (forall i, 0 <= i < 256 ->
             flash s (CONFIG_APPLICATION_START cfg + i) = 0xFF) ->
  forall fuel, canboot_main cfg fuel s = Fault OutOfFuel.
Proof.
  intros Hbs Hbuf Hsig Hblank fuel.
  unfold canboot_main.
  unfold bind at 1. unfold get_bootup_code, gets at 1.
  apply Z.eqb_neq in Hsig. rewrite Hsig.
  unfold bind at 1. unfold bind at 1.
  rewrite check_application_code_run by lia. cbv zeta.
  rewrite check_loop_never_ends; [reflexivity | lia | exact Hbs |].
  intros j Hj.
  replace (Z.to_nat j) with (0 + Z.to_nat j)%nat by reflexivity.
  rewrite nth_splice_inside
    by (rewrite ?length_application_first_block; lia).
  rewrite nth_application_first_block by lia.
  rewrite Z2Nat.id by lia. apply Hblank. exact Hj.
Qed.

Lemma blank_scan_never_ends_for_large_blocks_witness :
  canboot_main large_block_cfg 1000
               (power_on large_block_cfg (fun _ => 0xFF) 0 0)
  = Fault OutOfFuel.
Proof.
  refine (blank_scan_never_ends_for_large_blocks large_block_cfg
            (power_on large_block_cfg (fun _ => 0xFF) 0 0) _ _ _ _ 1000).
  - vm_compute. discriminate.
  - vm_compute. discriminate.
  - vm_compute. discriminate.
  - intros i _. reflexivity.
Defined.

(** ** The update-mode loop *)

(** X11: [enter_bootloader] reaches [canbus_reboot()] only with [complete]
    set: if the loop is left, a complete command has been handled (or the
    flag was set on entry), and the last thing recorded before the reboot
    is the delay of 100000 microseconds. *)
Theorem enter_bootloader_reboots_after_complete
  (cfg : config) (passes : list (list command * bool)) (s s' : state) :
  enter_bootloader cfg passes s = Done (Rebooted, s') ->
  complete s' = true
  /\ (complete s = false -> has_complete (concat (map fst passes)) = true)
  /\ last (trace s') EvCommandError = EvUdelay 100000.
Proof.
  revert s. induction passes as [|[frames tx] rest IH]; intros s H.
  - cbn in H. unfold ret in H. discriminate.
  - cbn [enter_bootloader] in H. unfold bind at 1 in H.
    destruct (run cfg frames s) as [[[] s1]|f] eqn:Hrun; [|discriminate].
    destruct (run_complete_flag cfg frames s s1 Hrun) as [Hflag _].
    unfold bind at 1 in H. unfold gets at 1 in H.
    assert (Hcat : has_complete (concat (map fst ((frames, tx) :: rest)))
                   = has_complete frames
                     || has_complete (concat (map fst rest))).
    { cbn [map fst concat]. unfold has_complete. apply existsb_app. }
    destruct (complete s1 && tx) eqn:Hexit.
    + apply andb_true_iff in Hexit. destruct Hexit as [Hdone _].
      unfold_monad. injection H as <-. simpl_state.
      split; [exact Hdone|]. split; [|apply last_last].
      intros Hs. rewrite Hcat. rewrite Hflag, Hs in Hdone.
      cbn [orb] in Hdone. rewrite Hdone. reflexivity.
    + apply IH in H. destruct H as (Hc & Hsome & Hlast).
      split; [exact Hc|]. split; [|exact Hlast].
      intros Hs. rewrite Hcat.
      destruct (has_complete frames) eqn:Hf; [reflexivity|].
      cbn [orb]. apply Hsome. rewrite Hflag, Hs. cbn [orb].
      first [exact Hf | reflexivity].
Qed.

Lemma enter_bootloader_reboots_after_complete_witness :
  exists s',
    enter_bootloader scenario_cfg
      [([Connect empty_frame], true);
       ([ReadBlock (read_frame 0x8000)], true);
       ([Eof empty_frame; Complete empty_frame], false);
       ([], true)]
      scenario_power_on = Done (Rebooted, s')
    /\ complete s' = true
    /\ last (trace s') EvCommandError = EvUdelay 100000.
Proof.
  assert (Hex : exists s',
             enter_bootloader scenario_cfg
               [([Connect empty_frame], true);
                ([ReadBlock (read_frame 0x8000)], true);
                ([Eof empty_frame; Complete empty_frame], false);
                ([], true)]
               scenario_power_on = Done (Rebooted, s'))
    by (eexists; reflexivity).
  destruct Hex as [s' Hrun].
  destruct (enter_bootloader_reboots_after_complete _ _ _ _ Hrun)
    as (Hc & _ & Hl).
  exists s'. split; [exact Hrun|]. split; [exact Hc | exact Hl].
Defined.

(** ** The image a contiguous session leaves in flash *)

Lemma spliced_page_content (buf w p : list Z) (base r : Z) :
  0 <= base -> 0 <= r ->
  Z.of_nat (length w) = base + r ->
  r + Z.of_nat (length p) <= Z.of_nat (length buf) ->
  (forall j, 0 <= j < r ->
     nth (Z.to_nat j) buf 0 = nth (Z.to_nat (base + j)) w 0) ->
  forall j, 0 <= j < r + Z.of_nat (length p) ->
    nth (Z.to_nat j) (splice buf (Z.to_nat r) p) 0
    = nth (Z.to_nat (base + j)) (w ++ p) 0.
Proof.
  intros Hbase Hr Hw Hfit Hold j Hj.
  destruct (Z.lt_ge_cases j r) as [Hlt | Hge].
  - rewrite nth_splice_outside by lia.
    rewrite Hold by lia.
    rewrite app_nth1 by lia. reflexivity.
  - replace (Z.to_nat j) with (Z.to_nat r + Z.to_nat (j - r))%nat by lia.
    rewrite nth_splice_inside by lia.
    rewrite app_nth2 by lia.
    f_equal. lia.
Qed.

Section ImageSession.

Variable cfg : config.
Hypothesis block_size_pos : 0 < CONFIG_BLOCK_SIZE cfg.
Hypothesis page_size_u32 : 0 < flash_page_size cfg < 2 ^ 32.
Hypothesis block_divides_page : (CONFIG_BLOCK_SIZE cfg | flash_page_size cfg).
Hypothesis page_fits_buffer :
  flash_page_size cfg <= CONFIG_MAX_FLASH_PAGE_SIZE cfg.

Lemma image_write_block (s : state) (a : Z) (w p : list Z) :
  image_written cfg s a w ->
  (CONFIG_BLOCK_SIZE cfg | a) ->
  a < 2 ^ 32 ->
  Z.of_nat (length p) = CONFIG_BLOCK_SIZE cfg ->
  exists s',
    command_write_block cfg (write_frame cfg a p) s = Done (tt, s')
    /\ image_written cfg s' (a + CONFIG_BLOCK_SIZE cfg) (w ++ p).
Proof.
  intros (q & r & k & Ha & Hr & Hk & Hk0 & Hpend & Hlast & Hbuf & Hlen
          & Hflash & Hopen & Htail) Hal Hu32 Hp.
  assert (Hpos : page_pos cfg a = r).
  { unfold page_pos, flash_get_page_size. symmetry.
    apply (Z.mod_unique a _ q r); [left; exact Hr | exact Ha]. }
  destruct (page_pos_aligned cfg a block_size_pos ltac:(lia)
              block_divides_page Hal) as (_ & Hfit & _).
  rewrite Hpos in Hfit.
  set (ps := flash_page_size cfg) in *.
  assert (Hbase : 0 <= ps * (q - k)) by nia.
  assert (Hge : CONFIG_APPLICATION_START cfg <= a) by lia.
  assert (H0 : 0 <= a) by nia.
  assert (Hw : Z.of_nat (length w) = ps * (q - k) + r) by lia.
  pose proof (spliced_page_content (page_buffer s) w p (ps * (q - k)) r
                Hbase ltac:(lia) Hw ltac:(lia) Hopen) as Hpage.
  destruct (Z.eq_dec (r + CONFIG_BLOCK_SIZE cfg) ps) as [Hfill | Hshort].
  - eexists. split.
    + apply write_block_fills_page; solve [assumption | lia].
    + exists (q + 1), 0, k. unfold committed, staged. simpl_state.
      fold ps. rewrite Hpos, length_app.
      split; [lia|]. split; [lia|]. split; [exact Hk|]. split; [lia|].
      split; [reflexivity|]. split; [intros _; lia|].
      split; [rewrite repeat_length; lia|]. split; [lia|].
      split; [|split].
      * intros i Hi.
        destruct (Z.lt_ge_cases i (ps * (q - k))) as [Hold | Hnew].
        -- replace ((a - r <=? CONFIG_APPLICATION_START cfg + i)
                    && (CONFIG_APPLICATION_START cfg + i <? a - r + ps))
             with false
             by (symmetry; apply andb_false_iff; left; apply Z.leb_gt; lia).
           rewrite Hflash by lia. rewrite app_nth1 by lia. reflexivity.
        -- replace ((a - r <=? CONFIG_APPLICATION_START cfg + i)
                    && (CONFIG_APPLICATION_START cfg + i <? a - r + ps))
             with true
             by (symmetry; apply andb_true_iff; split;
                 [apply Z.leb_le | apply Z.ltb_lt]; nia).
           rewrite (Hpage (CONFIG_APPLICATION_START cfg + i - (a - r))) by nia.
           f_equal. lia.
      * intros j Hj. lia.
      * intros _ j Hj. apply nth_repeat_lt. lia.
  - eexists. split.
    + apply write_block_stages; solve [assumption | lia].
    + exists q, (r + CONFIG_BLOCK_SIZE cfg), k. unfold staged. simpl_state.
      fold ps. rewrite Hpos, length_app.
      split; [lia|]. split; [lia|]. split; [exact Hk|]. split; [lia|].
      split; [lia|]. split; [exact Hlast|].
      split; [rewrite length_splice; lia|]. split; [lia|].
      split; [|split].
      * intros i Hi. rewrite Hflash by lia.
        rewrite app_nth1 by lia. reflexivity.
      * intros j Hj. apply Hpage. lia.
      * intros Hkq j Hj. rewrite nth_splice_outside by lia.
        apply Htail; [exact Hkq | lia].
Qed.

Lemma image_contiguous (payloads : list (list Z)) :
  forall (s : state) (a : Z) (w : list Z),
    image_written cfg s a w ->
    (CONFIG_BLOCK_SIZE cfg | a) ->
    a + Z.of_nat (length payloads) * CONFIG_BLOCK_SIZE cfg <= 2 ^ 32 ->
    Forall (fun p => Z.of_nat (length p) = CONFIG_BLOCK_SIZE cfg) payloads ->
    exists s',
      run cfg (contiguous_blocks cfg a payloads) s = Done (tt, s')
      /\ image_written cfg s'
           (a + Z.of_nat (length payloads) * CONFIG_BLOCK_SIZE cfg)
           (w ++ concat payloads).
Proof.
  induction payloads as [|p rest IH]; intros s a w Hi Hal Hend Hlens.
  - exists s. split; [reflexivity|].
    cbn [length concat]. rewrite Z.mul_0_l, Z.add_0_r, app_nil_r. exact Hi.
  - inversion Hlens as [|? ? Hp Hrest]; subst.
    cbn [length] in Hend. rewrite Nat2Z.inj_succ in Hend.
    destruct (image_write_block s a w p Hi Hal ltac:(nia) Hp) as (s1 & Hrun & Hi1).
    cbn [contiguous_blocks].
    rewrite (run_cons cfg _ _ s s1) by exact Hrun.
    destruct (IH s1 (a + CONFIG_BLOCK_SIZE cfg) (w ++ p) Hi1)
      as (s' & Hrun' & Hi');
      [ apply Z.divide_add_r; [exact Hal | apply Z.divide_refl]
      | nia | exact Hrest | ].
    exists s'. split; [exact Hrun'|].
    cbn [length concat]. rewrite Nat2Z.inj_succ.
    replace (a + Z.succ (Z.of_nat (length rest)) * CONFIG_BLOCK_SIZE cfg)
      with (a + CONFIG_BLOCK_SIZE cfg
            + Z.of_nat (length rest) * CONFIG_BLOCK_SIZE cfg) by ring.
    rewrite app_assoc. exact Hi'.
Qed.

Lemma image_eof (s : state) (a : Z) (w : list Z) (d : frame) :
  image_written cfg s a w ->
  CONFIG_APPLICATION_START cfg + flash_page_size cfg <= a ->
  a <= 2 ^ 32 ->
  exists s',
    command_eof cfg d s = Done (tt, s')
    /\ (forall i, 0 <= i < Z.of_nat (length w) ->
          flash s' (CONFIG_APPLICATION_START cfg + i)
          = nth (Z.to_nat i) w 0)
    /\ (forall i,
          Z.of_nat (length w) <= i
          < flash_page_size cfg
            * DIV_ROUND_UP (Z.of_nat (length w)) (flash_page_size cfg) ->
          flash s' (CONFIG_APPLICATION_START cfg + i) = 0xFF).
Proof.
  intros (q & r & k & Ha & Hr & Hk & Hk0 & Hpend & Hlast & Hbuf & Hlen
          & Hflash & Hopen & Htail) Hpage Hu32.
  assert (Hkq : k < q) by nia.
  specialize (Hlast Hkq). specialize (Htail Hkq).
  set (ps := flash_page_size cfg) in *.
  assert (Hbase : 0 <= ps * (q - k)) by nia.
  assert (Hw : Z.of_nat (length w) = ps * (q - k) + r) by lia.
  rewrite eof_run by lia. cbv zeta. fold ps.
  eexists. split; [reflexivity|].
  simpl_state. rewrite Hpend.
  destruct (Z.eqb_spec r 0) as [Hr0 | Hr0]; cbn [negb].
  - simpl_state. split.
    + intros i Hi. apply Hflash. lia.
    + intros i Hi. exfalso.
      assert (DIV_ROUND_UP (Z.of_nat (length w)) ps = q - k).
      { unfold DIV_ROUND_UP. symmetry.
        apply (Z.div_unique _ ps (q - k) (ps - 1)); [left; lia | lia]. }
      nia.
  - unfold committed. simpl_state. fold ps.
    rewrite Hlast.
    replace (ps * (q - 1) + ps) with (ps * q) by ring.
    rewrite (wrap32_small (ps * q)) by nia.
    assert (Hin : forall i, ps * (q - k) <= i < ps * (q - k) + ps ->
              (ps * q <=? CONFIG_APPLICATION_START cfg + i)
              && (CONFIG_APPLICATION_START cfg + i <? ps * q + ps) = true).
    { intros i Hi. apply andb_true_iff.
      split; [apply Z.leb_le | apply Z.ltb_lt]; lia. }
    split.
    + intros i Hi.
      destruct (Z.lt_ge_cases i (ps * (q - k))) as [Hold | Hnew].
      * replace ((ps * q <=? CONFIG_APPLICATION_START cfg + i)
                 && (CONFIG_APPLICATION_START cfg + i <? ps * q + ps))
          with false
          by (symmetry; apply andb_false_iff; left; apply Z.leb_gt; lia).
        apply Hflash. lia.
      * rewrite Hin by lia.
        rewrite (Hopen (CONFIG_APPLICATION_START cfg + i - ps * q)) by lia.
        f_equal. lia.
    + intros i Hi.
      assert (DIV_ROUND_UP (Z.of_nat (length w)) ps = q - k + 1).
      { unfold DIV_ROUND_UP. symmetry.
        apply (Z.div_unique _ ps (q - k + 1) (r - 1)); [left; lia | lia]. }
      rewrite Hin by nia.
      apply Htail. lia.
Qed.

End ImageSession.

(** X12: for a contiguous session from a page-aligned application start
    that carries at least one page of data, the end-of-file
    acknowledgement carries the number of pages committed to flash, which
    is the size of the data divided by the page size, rounded up. *)
Theorem contiguous_session_reports_page_count
  (cfg : config) (s : state) (payloads : list (list Z)) (d : frame) (k : Z) :
  0 < CONFIG_BLOCK_SIZE cfg ->
  1 < flash_page_size cfg < 2 ^ 32 ->
  (CONFIG_BLOCK_SIZE cfg | flash_page_size cfg) ->
  flash_page_size cfg <= CONFIG_MAX_FLASH_PAGE_SIZE cfg ->
  CONFIG_APPLICATION_START cfg = flash_page_size cfg * k ->
  0 <= k ->
  page_pending s = false ->
  flash_commits (trace s) = [] ->
  flash_page_size cfg <= Z.of_nat (length (page_buffer s)) ->
  Forall (fun p => Z.of_nat (length p) = CONFIG_BLOCK_SIZE cfg) payloads ->
  flash_page_size cfg <= Z.of_nat (length payloads) * CONFIG_BLOCK_SIZE cfg ->
  CONFIG_APPLICATION_START cfg
  + Z.of_nat (length payloads) * CONFIG_BLOCK_SIZE cfg <= 2 ^ 32 ->
  exists s' n,
    run cfg (contiguous_blocks cfg (CONFIG_APPLICATION_START cfg) payloads
             ++ [Eof d]) s = Done (tt, s')
    /\ last (trace s') EvCommandError = EvAck CMD_RX_EOF [n] []
    /\ n = Z.of_nat (length (flash_commits (trace s')))
    /\ n = DIV_ROUND_UP (Z.of_nat (length payloads) * CONFIG_BLOCK_SIZE cfg)
                        (flash_page_size cfg).
Proof.
  intros Hbs Hps Hdiv Hmax Hk Hk0 Hpend Hnone Hbuf Hlens Hdata Hend.
  apply (contiguous_session_page_count cfg Hbs ltac:(lia) Hdiv Hmax
           s payloads d k); solve [assumption | lia].
Qed.

Lemma contiguous_session_reports_page_count_witness :
  exists s',
    run scenario_cfg
        (contiguous_blocks scenario_cfg 0x8000 five_blocks ++ [Eof empty_frame])
        scenario_power_on = Done (tt, s')
    /\ last (trace s') EvCommandError = EvAck CMD_RX_EOF [2] []
    /\ length (flash_commits (trace s')) = 2%nat.
Proof.
  destruct (contiguous_session_reports_page_count scenario_cfg
              scenario_power_on five_blocks empty_frame 128)
    as (s' & n & Hrun & Hack & Hn & Hceil).
  - reflexivity.
  - split; reflexivity.
  - exists 4. reflexivity.
  - vm_compute. discriminate.
  - reflexivity.
  - vm_compute. discriminate.
  - reflexivity.
  - reflexivity.
  - vm_compute. discriminate.
  - repeat constructor.
  - vm_compute. discriminate.
  - vm_compute. discriminate.
  - exists s'. split; [exact Hrun|].
    assert (Hn2 : n = 2) by (rewrite Hceil; reflexivity).
    split; [rewrite Hack, Hn2; reflexivity|].
    apply Nat2Z.inj. rewrite <- Hn, Hn2. reflexivity.
Defined.

(** X13: a contiguous session from a page-aligned application start that
    carries at least one page of data, closed by end-of-file, leaves the
    data in flash byte for byte from the application start on, and the
    rest of the last page written reads 0xFF. *)
Theorem contiguous_session_writes_image
  (cfg : config) (s : state) (payloads : list (list Z)) (d : frame) (k : Z) :
  0 < CONFIG_BLOCK_SIZE cfg ->
  0 < flash_page_size cfg < 2 ^ 32 ->
  (CONFIG_BLOCK_SIZE cfg | flash_page_size cfg) ->
  flash_page_size cfg <= CONFIG_MAX_FLASH_PAGE_SIZE cfg ->
  CONFIG_APPLICATION_START cfg = flash_page_size cfg * k ->
  0 <= k ->
  page_pending s = false ->
  flash_page_size cfg <= Z.of_nat (length (page_buffer s)) ->
  Forall (fun p => Z.of_nat (length p) = CONFIG_BLOCK_SIZE cfg) payloads ->
  flash_page_size cfg <= Z.of_nat (length payloads) * CONFIG_BLOCK_SIZE cfg ->
  CONFIG_APPLICATION_START cfg
  + Z.of_nat (length payloads) * CONFIG_BLOCK_SIZE cfg <= 2 ^ 32 ->
  exists s',
    run cfg (contiguous_blocks cfg (CONFIG_APPLICATION_START cfg) payloads
             ++ [Eof d]) s = Done (tt, s')
    /\ (forall i, 0 <= i < Z.of_nat (length (concat payloads)) ->
          flash s' (CONFIG_APPLICATION_START cfg + i)
          = nth (Z.to_nat i) (concat payloads) 0)
    /\ (forall i,
          Z.of_nat (length (concat payloads)) <= i
          < flash_page_size cfg
            * DIV_ROUND_UP (Z.of_nat (length (concat payloads)))
                           (flash_page_size cfg) ->
          flash s' (CONFIG_APPLICATION_START cfg + i) = 0xFF).
Proof.
  intros Hbs Hps Hdiv Hmax Hk Hk0 Hpend Hbuf Hlens Hdata Hend.
  assert (Hi : image_written cfg s (CONFIG_APPLICATION_START cfg) []).
  { exists k, 0, k. rewrite Hpend. cbn [length Z.of_nat].
    repeat split; try lia. }
  assert (Hal : (CONFIG_BLOCK_SIZE cfg | CONFIG_APPLICATION_START cfg)).
  { rewrite Hk. apply Z.divide_mul_l. exact Hdiv. }
  destruct (image_contiguous cfg Hbs Hps Hdiv Hmax payloads s _ [] Hi Hal Hend Hlens)
    as (s1 & Hrun & Hi1).
  cbn [app] in Hi1.
  destruct (image_eof cfg Hps s1 _ _ d Hi1 ltac:(lia) Hend)
    as (s' & Heof & Himg & Hpad).
  exists s'.
  rewrite (run_app cfg _ _ s s1) by exact Hrun.
  cbn [run handle]. unfold bind at 1. rewrite Heof.
  split; [reflexivity|]. split; assumption.
Qed.

Lemma contiguous_session_writes_image_witness :
  exists s',
    run scenario_cfg
        (contiguous_blocks scenario_cfg 0x8000 five_blocks ++ [Eof empty_frame])
        scenario_power_on = Done (tt, s')
    /\ flash s' (0x8000 + 300) = 5
    /\ flash s' (0x8000 + 400) = 0xFF.
Proof.
  destruct (contiguous_session_writes_image scenario_cfg
              scenario_power_on five_blocks empty_frame 128)
    as (s' & Hrun & Himg & Hpad).
  - reflexivity.
  - split; reflexivity.
  - exists 4. reflexivity.
  - vm_compute. discriminate.
  - reflexivity.
  - vm_compute. discriminate.
  - reflexivity.
  - vm_compute. discriminate.
  - repeat constructor.
  - vm_compute. discriminate.
  - vm_compute. discriminate.
  - exists s'. split; [exact Hrun|]. split.
    + rewrite Himg; [reflexivity|]. vm_compute. split; [discriminate | reflexivity].
    + apply Hpad. vm_compute. split; [discriminate | reflexivity].
Defined.

(** ** The transfer flag and the calls made while booting *)

Lemma handle_transfer_flag (cfg : config) (c : command) (s s' : state) :
  handle cfg c s = Done (tt, s') ->
  is_in_transfer s' = transfer_after (is_in_transfer s) [c].
Proof.
  destruct c as [d | d | d | d | d];
    cbn [handle transfer_after fold_left]; intros H.
  - unfold command_connect, command_respond_ack, modify in H.
    injection H as <-. reflexivity.
  - rewrite read_block_run in H. injection H as <-. reflexivity.
  - apply write_block_done_inv in H.
    destruct H as [-> | (buf' & _ & _ & _ & [-> | ->])]; reflexivity.
  - apply eof_done_inv in H. destruct H as [_ ->]. cbv zeta.
    destruct (page_pending s); reflexivity.
  - unfold command_complete, command_respond_ack, bind, modify in H.
    injection H as <-. reflexivity.
Qed.

(** X14: what [flashcmd_is_in_transfer] reports after a session is decided
    by the last read-block, write-block or end-of-file in it: true after a
    read-block or a write-block (a rejected one included), false after an
    end-of-file; connect and complete do not change it, so the flag stays
    set when a session is completed without end-of-file. *)
Theorem transfer_flag_after_session
  (cfg : config) (cs : list command) (s s' : state) :
  run cfg cs s = Done (tt, s') ->
  flashcmd_is_in_transfer s'
  = Done (transfer_after (is_in_transfer s) cs, s').
Proof.
  unfold flashcmd_is_in_transfer, gets. intros H. do 2 f_equal.
  revert s H. induction cs as [|c cs IH]; intros s H.
  - cbn in H. unfold ret in H. injection H as <-. reflexivity.
  - apply run_cons_inv in H. destruct H as (s1 & Hc & Hrest).
    apply handle_transfer_flag in Hc. apply IH in Hrest.
    rewrite Hrest, Hc. reflexivity.
Qed.

Lemma transfer_flag_after_session_witness :
  exists s',
    run scenario_cfg [WriteBlock low_address_frame; Complete empty_frame]
        scenario_power_on = Done (tt, s')
    /\ flashcmd_is_in_transfer s' = Done (true, s').
Proof.
  assert (Hex : exists s',
             run scenario_cfg
                 [WriteBlock low_address_frame; Complete empty_frame]
                 scenario_power_on = Done (tt, s'))
    by (eexists; reflexivity).
  destruct Hex as [s' Hrun].
  exists s'. split; [exact Hrun|].
  exact (transfer_flag_after_session _ _ _ _ Hrun).
Defined.

(** X15: the button set-up and the delays of [canboot_main], the calls
    it makes that are recorded here (reads and writes of the boot-up
    register, the flash read and the button read are not).  With a boot
    request or a blank application there is no [gpio_in_setup] and no
    [udelay].  Otherwise the button, if enabled, is set up and 10
    microseconds pass before it is read; and on the way to the
    application the double-reset delay of 500000 microseconds runs, if
    enabled. *)
Theorem boot_button_setup_and_delays (cfg : config) (fuel : nat) (s : state) :
  0 <= CONFIG_BLOCK_SIZE cfg <= 255 ->
  CONFIG_BLOCK_SIZE cfg <= Z.of_nat (length (page_buffer s)) ->
  (Z.to_nat (CONFIG_BLOCK_SIZE cfg) < fuel)%nat ->
  exists d s',
    canboot_main cfg fuel s = Done (d, s')
    /\ trace s'
       = trace s
         ++ (if (bootup_code s =? REQUEST_SIG)
                || all_fill (application_first_block cfg s)
             then []
             else
               (if CONFIG_ENABLE_BUTTON cfg
                then [EvGpioInSetup (button_gpio cfg) (button_pullup cfg);
                      EvUdelay 10]
                else [])
               ++ (if CONFIG_ENABLE_BUTTON cfg
                      && (gpio_level s =? button_high cfg)
                   then []
                   else if CONFIG_ENABLE_DOUBLE_RESET cfg
                        then [EvUdelay 500000] else [])).
Proof.
  intros Hbs Hbuf Hfuel.
  unfold canboot_main.
  unfold bind at 1. unfold get_bootup_code, gets at 1.
  destruct (bootup_code s =? REQUEST_SIG) eqn:Hsig; cbn [orb].
  - eexists _, _. split; [reflexivity|]. simpl_state.
    rewrite app_nil_r. reflexivity.
  - unfold bind at 1. unfold bind at 1.
    rewrite check_application_code_result by assumption.
    destruct (all_fill (application_first_block cfg s)); cbn [orb Z.eqb].
    + eexists _, _. split; [reflexivity|]. simpl_state.
      rewrite app_nil_r. reflexivity.
    + unfold check_button_pressed, check_double_reset.
      destruct (CONFIG_ENABLE_BUTTON cfg); cbn [negb andb orb].
      * unfold_monad. simpl_state.
        destruct (gpio_level s =? button_high cfg); cbn [orb];
          destruct (CONFIG_ENABLE_DOUBLE_RESET cfg); cbn [negb];
          (eexists _, _; split; [reflexivity|]); simpl_state;
          rewrite <- ?app_assoc; cbn [app]; reflexivity.
      * unfold_monad.
        destruct (CONFIG_ENABLE_DOUBLE_RESET cfg); cbn [negb];
          (eexists _, _; split; [reflexivity|]); simpl_state;
          rewrite ?app_nil_r; reflexivity.
Qed.

Lemma boot_button_setup_and_delays_witness :
  exists d s',
    canboot_main double_reset_cfg 65 installed_power_on = Done (d, s')
    /\ trace s' = [EvUdelay 500000].
Proof.
  destruct (boot_button_setup_and_delays double_reset_cfg 65 installed_power_on)
    as (d & s' & H & Ht).
  - vm_compute. split; discriminate.
  - vm_compute. discriminate.
  - change (Z.to_nat (CONFIG_BLOCK_SIZE double_reset_cfg)) with 64%nat. lia.
  - exists d, s'. split; [exact H | exact Ht].
Defined.
